(** * bnuoj-vjudge-nodejs: the virtual judger engine and its A2OJ backend

    A shallow embedding of [judger/basejudger.js], [judger/a2ojjudger.js] and
    [config.js], followed by the properties of the judging pipeline, of the
    dispatcher framing and of the A2OJ backend.

    Reading conventions.
    - A judger object is a record; the fields a subclass adds live in [ext].
      Methods are state transformers in the monad [M], which also carries the
      JavaScript completion of the call (normal value or thrown exception).
    - A promise is represented by the way it settles ([Resolved], [Rejected])
      or by [Pending] when it never settles.  The callbacks given to [then]
      are run at the place of the [then]; every [then] of the source is the
      last statement of the function that contains it, so the order of the
      effects of one job is the order of the source.  An exception thrown
      inside a callback rejects the promise derived by [then], which nobody
      observes: it is recorded in [history] and otherwise dropped.
    - A timer callback is run at the place of [setTimeout], after the delay
      has been recorded.  An exception that leaves a timer callback or a
      socket event handler reaches the event loop; it is kept in [uncaught].
    - In [basejudger.js] the name [Buffer] is bound by
      [var Buffer = require('buffer')] to the module, an object that is not
      a constructor and has no property [concat]: [new Buffer(...)] and
      [Buffer.concat(...)] throw a TypeError.
    - The constructor sets the encoding of the socket to utf8, so the socket
      hands strings to its ['data'] listener; a string has no method
      [readIntBE].  The JSDoc of [onData_] announces a Buffer, which is what
      a socket without encoding hands over; a [chunk] is one or the other,
      and [delivers] says which of the two a given socket emits.
    - A JavaScript string is represented by the bytes of its UTF-8 encoding.
    - A [connect] call adds its listener for one ['connect'] event; the
      socket counts the listeners that wait, and the event runs them all.
    - [JSON.stringify], [JSON.parse], the HTTP responses of the remote site
      and the readings of [Date.now] are parameters of the model.
    - [history] is a ghost field: it lists the virtual method calls, timers,
      failure reports and result reports in the order the engine makes them.
      [console] and the socket's [written] are the effects of the source. *)

From Stdlib Require Import ZArith String Ascii List Lia.
From Stdlib.Strings Require Import Byte.
From stdpp Require Import base option gmap strings list pretty.

Open Scope Z_scope.

(** ** JavaScript values, completions and promises *)

(** The values that travel as exceptions, rejection reasons, failure reasons
    and language ids: [undefined] ([reject()] without argument), strings
    ([throw 'Invalid language'], the members of [BaseJudger.ERRORS], the
    entries of a language table), Error objects, and the members of
    [Object.prototype] that a property lookup on an object literal reaches
    through the prototype chain ([JInherited "toString"] is the function
    [Object.prototype.toString]). *)
Inductive jsval : Type :=
  | JUndefined
  | JString (s : string)
  | JError (name message : string)
  | JInherited (name : string).

(** String conversion, as done by ['...' + v]. *)
Definition toString (v : jsval) : string :=
  match v with
  | JUndefined => "undefined"
  | JString s => s
  | JError name message =>
      if String.eqb name EmptyString then message
      else if String.eqb message EmptyString then name
      else name +:+ ": " +:+ message
  | JInherited name =>
      if String.eqb name "__proto__" then "[object Object]"
      else if String.eqb name "constructor" then "function Object() { [native code] }"
      else "function " +:+ name +:+ "() { [native code] }"
  end.

(** Truthiness, as tested by [!v]. *)
Definition truthy (v : jsval) : bool :=
  match v with
  | JUndefined => false
  | JString s => negb (String.eqb s EmptyString)
  | JError _ _ | JInherited _ => true
  end.

(** [v == s] for a string [s] (loose equality). *)
Definition loose_eq (v : jsval) (s : string) : bool :=
  match v with
  | JUndefined => false
  | _ => String.eqb (toString v) s
  end.

Inductive completion (A : Type) : Type :=
  | Normal (a : A)
  | Throw (e : jsval).
Arguments Normal {A} a.
Arguments Throw {A} e.

Inductive promise (A : Type) : Type :=
  | Resolved (a : A)
  | Rejected (e : jsval)
  | Pending.
Arguments Resolved {A} a.
Arguments Rejected {A} e.
Arguments Pending {A}.

Definition TypeError (message : string) : jsval := JError "TypeError" message.
Definition RangeError (message : string) : jsval := JError "RangeError" message.
Definition SyntaxError (message : string) : jsval := JError "SyntaxError" message.
Definition Error (message : string) : jsval := JError "Error" message.

(** The one-character string holding a double quote. *)
Definition quote : string := String (ascii_of_nat 34) EmptyString.

(** ** Buffers

    The instances of Node's class Buffer, as the bytes they hold, with the
    methods the source calls on them. *)

Module Buffer.

Definition byte_of_Z (z : Z) : byte :=
  default x00 (Byte.of_N (Z.to_N (z mod 256))).

Definition Z_of_byte (b : byte) : Z := Z.of_N (Byte.to_N b).

(** What [new Buffer(size)] makes of the class; the source overwrites all
    of it before use. *)
Definition new_size (size : nat) : list byte := replicate size x00.

(** The bytes of a string in UTF-8: what [new Buffer(string)] makes of the
    class and what [write] puts on the wire for a string; [buf.toString()]
    is the way back. *)
Definition new_string (s : string) : list byte := list_byte_of_string s.
Definition toString (buf : list byte) : string := string_of_list_byte buf.

Definition length (buf : list byte) : Z := Z.of_nat (List.length buf).

(** [buf.slice(start)] *)
Definition slice (buf : list byte) (start : nat) : list byte := drop start buf.

Definition unsignedBE (bytes : list byte) : Z :=
  fold_left (fun acc b => acc * 256 + Z_of_byte b) bytes 0.

(** [buf.readIntBE(offset, byteLength)]: a signed big-endian integer;
    RangeError when the bytes are not all inside the buffer. *)
Definition readIntBE (buf : list byte) (offset byteLength : nat) : completion Z :=
  if (offset + byteLength <=? List.length buf)%nat then
    let u := unsignedBE (take byteLength (drop offset buf)) in
    let half := 2 ^ (8 * Z.of_nat byteLength - 1) in
    Normal (if u <? half then u else u - 2 * half)
  else Throw (RangeError "Index out of range").

Definition bytesBE (byteLength : nat) (value : Z) : list byte :=
  map (fun i : nat => byte_of_Z (value / 2 ^ (8 * Z.of_nat (byteLength - 1 - i))))
      (seq 0 byteLength).

(** [buf.writeIntBE(value, offset, byteLength)]: the buffer after the
    write.  The checks are those of the Node releases of the time of the
    source (4 to 8): a TypeError when [value] does not fit, then a
    RangeError when the bytes are not all inside the buffer. *)
Definition writeIntBE (buf : list byte) (value : Z) (offset byteLength : nat)
  : completion (list byte) :=
  let half := 2 ^ (8 * Z.of_nat byteLength - 1) in
  if negb ((- half <=? value) && (value <? half)) then
    Throw (TypeError (quote +:+ "value" +:+ quote +:+ " argument is out of bounds"))
  else if negb (offset + byteLength <=? List.length buf)%nat then
    Throw (RangeError "Index out of range")
  else
    Normal (take offset buf ++ bytesBE byteLength value
              ++ drop (offset + byteLength) buf).

End Buffer.

(** ** Chunks

    What a socket hands to a ['data'] listener: a string when an encoding
    has been set on the socket, a Buffer when none has. *)

Inductive chunk : Type :=
  | Text (s : string)
  | Bytes (buf : list byte).

(** [s.length] for the string whose UTF-8 encoding is [s]: the number of its
    UTF-16 code units, one for a character encoded in up to three bytes, two
    for a character encoded in four. *)
Definition utf16_length (s : string) : Z :=
  fold_left
    (fun n b =>
       let z := Buffer.Z_of_byte b in
       if z <? 128 then n + 1
       else if z <? 192 then n
       else if z <? 240 then n + 1
       else n + 2)
    (list_byte_of_string s) 0.

(** [data.length] *)
Definition chunk_length (data : chunk) : Z :=
  match data with
  | Text s => utf16_length s
  | Bytes buf => Buffer.length buf
  end.

(** ** Messages *)

(** The submit info decoded from a dispatcher frame.  [language] holds the
    dispatcher's code when the job arrives and the backend's language id once
    [maybeJudge_] has translated it. *)
Module Info.
Record t : Type := mk {
  runid : string;
  vid : string;
  language : jsval;
  source : string
}.
Definition set_language (l : jsval) (info : t) : t :=
  mk (runid info) (vid info) l (source info).
End Info.

(** What [getStatus] resolves with. *)
Module Status.
Record t : Type := mk {
  memoryUsed : string;
  timeUsed : string;
  result : string;
  remoteRunid : string
}.
End Status.

(** The result object reported to the dispatcher.  [compileInfo] is [None]
    while the property has not been assigned. *)
Module Result.
Record t : Type := mk {
  type : Z;
  runid : string;
  memoryUsed : string;
  timeUsed : string;
  result : string;
  remoteRunid : string;
  compileInfo : option string
}.
Definition set_compileInfo (c : string) (r : t) : t :=
  mk (type r) (runid r) (memoryUsed r) (timeUsed r) (result r)
     (remoteRunid r) (Some c).
End Result.

(** [JSON.stringify] on result objects and [JSON.parse] on frame payloads
    ([None]: SyntaxError). *)
Class JSON : Type := {
  JSON_stringify : Result.t -> string;
  JSON_parse : string -> option Info.t
}.

(** ** config.js *)

Module config.
Module dispatcher.
Definition host : string := "localhost".
Definition port : Z := 5907.
Definition secret : string := "yourjudgestring".
End dispatcher.
Definition logPath : string := "logs/".
Definition cookiePath : string := "cookies".
Record user : Type := mk_user {
  oj : string; username : string; password : string; timeout : Z
}.
Definition users : list user := [mk_user "A2OJ" "bnutest" "bnutest" 120].
End config.

(** ** The judger object *)

(** An HTTP request handed to Unirest. *)
Record request : Type := mk_request {
  http_method : string;
  http_url : string;
  http_form : list (string * jsval)
}.

(** The response Unirest hands to an [end] callback; [url] is [None] when
    the response object has no such property. *)
Record response : Type := mk_response {
  ok : bool;
  body : string;
  url : option string
}.

Inductive hevent : Type :=
  | HLogin
  | HSubmit (info : Info.t)
  | HGetStatus
  | HGetCompileInfo
  | HGetWaitTime
  | HTimer (ms : Z)
  | HFailed (info : Info.t) (reason : jsval) (result : Result.t)
  | HSendResult (result : Result.t)
  | HUnhandled (e : jsval)
  | HRequest (r : request).

(** The socket to the dispatcher: the encoding set on it, the [connect]
    calls made on it, the number of listeners that wait for the next
    ['connect'] event (each [connect] call adds its own, for one event), and
    the chunks given to [write], oldest first. *)
Record Socket : Type := mk_socket {
  encoding : option string;
  connects : list (string * Z);
  connectListeners : nat;
  written : list (list byte)
}.

(** [new Net.Socket()] and [socket.setEncoding(encoding)] *)
Definition new_Socket : Socket := mk_socket None [] 0 [].
Definition setEncoding (e : string) (socket : Socket) : Socket :=
  mk_socket (Some e) (connects socket) (connectListeners socket) (written socket).

Record Judger (X : Type) : Type := mk_judger {
  client_ : Socket;
  judgerId_ : string;
  receivedData_ : option (list byte);
  receivedBytes_ : Z;
  readBytes_ : Z;
  loggedIn_ : bool;
  ext : X;
  console : list string;
  history : list hevent;
  uncaught : option jsval
}.
Arguments mk_judger {X}.
Arguments client_ {X}.
Arguments judgerId_ {X}.
Arguments receivedData_ {X}.
Arguments receivedBytes_ {X}.
Arguments readBytes_ {X}.
Arguments loggedIn_ {X}.
Arguments ext {X}.
Arguments console {X}.
Arguments history {X}.
Arguments uncaught {X}.

Section Setters.
Context {X : Type}.
Implicit Type st : Judger X.

Definition set_client_ (c : Socket) st : Judger X :=
  mk_judger c (judgerId_ st) (receivedData_ st) (receivedBytes_ st)
    (readBytes_ st) (loggedIn_ st) (ext st) (console st) (history st)
    (uncaught st).
Definition set_receivedData_ (d : option (list byte)) st : Judger X :=
  mk_judger (client_ st) (judgerId_ st) d (receivedBytes_ st)
    (readBytes_ st) (loggedIn_ st) (ext st) (console st) (history st)
    (uncaught st).
Definition set_receivedBytes_ (n : Z) st : Judger X :=
  mk_judger (client_ st) (judgerId_ st) (receivedData_ st) n
    (readBytes_ st) (loggedIn_ st) (ext st) (console st) (history st)
    (uncaught st).
Definition set_readBytes_ (n : Z) st : Judger X :=
  mk_judger (client_ st) (judgerId_ st) (receivedData_ st)
    (receivedBytes_ st) n (loggedIn_ st) (ext st) (console st) (history st)
    (uncaught st).
Definition set_ext (x : X) st : Judger X :=
  mk_judger (client_ st) (judgerId_ st) (receivedData_ st)
    (receivedBytes_ st) (readBytes_ st) (loggedIn_ st) x (console st)
    (history st) (uncaught st).
Definition set_console (c : list string) st : Judger X :=
  mk_judger (client_ st) (judgerId_ st) (receivedData_ st)
    (receivedBytes_ st) (readBytes_ st) (loggedIn_ st) (ext st) c
    (history st) (uncaught st).
Definition set_history (h : list hevent) st : Judger X :=
  mk_judger (client_ st) (judgerId_ st) (receivedData_ st)
    (receivedBytes_ st) (readBytes_ st) (loggedIn_ st) (ext st)
    (console st) h (uncaught st).
Definition set_uncaught (e : option jsval) st : Judger X :=
  mk_judger (client_ st) (judgerId_ st) (receivedData_ st)
    (receivedBytes_ st) (readBytes_ st) (loggedIn_ st) (ext st)
    (console st) (history st) e.
End Setters.

(** ** The method monad *)

Definition M (X A : Type) : Type := Judger X -> completion A * Judger X.

#[global] Instance M_ret {X} : MRet (M X) :=
  fun A a st => (Normal a, st).
#[global] Instance M_bind {X} : MBind (M X) :=
  fun A B f c st =>
    match c st with
    | (Normal a, st') => f a st'
    | (Throw e, st') => (Throw e, st')
    end.

Section Primitives.
Context {X : Type}.

Definition this : M X (Judger X) := fun st => (Normal st, st).
Definition modify (f : Judger X -> Judger X) : M X unit :=
  fun st => (Normal tt, f st).
Definition throw {A} (e : jsval) : M X A := fun st => (Throw e, st).
Definition lift {A} (c : completion A) : M X A := fun st => (c, st).

(** [try { body } catch (err) { handler }] *)
Definition try_catch {A} (body : M X A) (handler : jsval -> M X A) : M X A :=
  fun st =>
    match body st with
    | (Normal a, st') => (Normal a, st')
    | (Throw e, st') => handler e st'
    end.

Definition record (h : hevent) : M X unit :=
  modify (fun st => set_history (history st ++ [h]) st).

Definition console_log (line : string) : M X unit :=
  modify (fun st => set_console (console st ++ [line]) st).

(** [this.client_.write(chunk)] *)
Definition client_write (chunk : list byte) : M X unit :=
  modify (fun st =>
    set_client_ (mk_socket (encoding (client_ st)) (connects (client_ st))
                           (connectListeners (client_ st))
                           (written (client_ st) ++ [chunk])) st).

(** [this.client_.connect({host, port}, listener)]: the call is made and
    [listener] waits for the next ['connect'] event. *)
Definition client_connect (host : string) (port : Z) : M X unit :=
  modify (fun st =>
    set_client_ (mk_socket (encoding (client_ st))
                           (connects (client_ st) ++ [(host, port)])
                           (S (connectListeners (client_ st)))
                           (written (client_ st))) st).

(** One of the listeners that wait for ['connect'] is taken off the socket,
    as the event does before it calls it. *)
Definition client_removeListener : M X unit :=
  modify (fun st =>
    set_client_ (mk_socket (encoding (client_ st)) (connects (client_ st))
                           (pred (connectListeners (client_ st)))
                           (written (client_ st))) st).

(** [p.then(onFulfilled, onRejected)] for a promise that settles as [p]. *)
Definition absorb (callback : M X unit) : M X unit :=
  fun st =>
    match callback st with
    | (Normal _, st') => (Normal tt, st')
    | (Throw e, st') => (Normal tt, set_history (history st' ++ [HUnhandled e]) st')
    end.

Definition then_ {A} (p : promise A)
    (onFulfilled : A -> M X unit) (onRejected : jsval -> M X unit) : M X unit :=
  match p with
  | Resolved a => absorb (onFulfilled a)
  | Rejected e => absorb (onRejected e)
  | Pending => mret tt
  end.

(** [setTimeout(callback, ms)], with [ms] already evaluated. *)
Definition setTimeout (callback : M X unit) (ms : Z) : M X unit :=
  fun st =>
    match callback (set_history (history st ++ [HTimer ms]) st) with
    | (Normal _, st') => (Normal tt, st')
    | (Throw e, st') => (Normal tt, set_uncaught (Some e) st')
    end.
End Primitives.

(** ** basejudger.js *)

Module BaseJudger.

(** The virtual methods of a judger.  [getWaitTime] is called by [judge_]
    but declared nowhere in the base class: [None] stands for a class that
    does not define it. *)
Record Methods (X : Type) : Type := mk_methods {
  getLanguage : jsval -> M X jsval;
  getCompileInfo : M X (promise string);
  login : M X (promise unit);
  submit : Info.t -> M X (promise unit);
  getStatus : M X (promise Status.t);
  getWaitTime : option (M X Z)
}.
Arguments mk_methods {X}.
Arguments getLanguage {X}.
Arguments getCompileInfo {X}.
Arguments login {X}.
Arguments submit {X}.
Arguments getStatus {X}.
Arguments getWaitTime {X}.

(** [var BaseJudger = function(judgerId) {...}]; [x] holds the fields of
    the subclass. *)
Definition new {X} (judgerId : string) (x : X) : Judger X :=
  {| client_ := setEncoding "utf8" new_Socket;
     judgerId_ := judgerId;
     receivedData_ := None;
     receivedBytes_ := 0;
     readBytes_ := 0;
     loggedIn_ := false;
     ext := x;
     console := [];
     history := [];
     uncaught := None |}.

Module ERRORS.
Definition SAME_CODE : string := "Same code".
Definition INVALID_LANGUAGE : string := "Invalid language".
Definition COMPILE_ERROR : string := "Compile error".
Definition LOGIN_FAILED : string := "Login failed".
Definition OTHERS : string := "Other".
End ERRORS.

Definition RESULT_REPORT_ : Z := 1003.

Section Prototype.
Context {X : Type} {json : JSON}.

(** [BaseJudger.prototype.log] *)
Definition log (message : string) : M X unit :=
  st ← this;
  console_log ("[" +:+ judgerId_ st +:+ "]: " +:+ message).

(** The methods of the base class itself. *)
Definition prototype : Methods X :=
  {| getLanguage := fun _ => throw (Error "GetLanguage must be implemented!");
     getCompileInfo := throw (Error "GetCompileInfo must be implemented!");
     login := throw (Error "Login must be implemented!");
     submit := fun _ => throw (Error "Submit must be implemented!");
     getStatus := throw (Error "getStatus must be implemented!");
     getWaitTime := None |}.

(** [BaseJudger.prototype.connect_]; the listener given to [connect] is
    [onConnect]. *)
Definition connect_ : M X unit :=
  client_connect config.dispatcher.host config.dispatcher.port.

Definition onConnect : M X unit :=
  log "Server connected.";;
  client_write (Buffer.new_string config.dispatcher.secret).

(** The ['connect'] event: each of the [n] listeners that wait is taken off
    the socket and called; all of them are [onConnect]. *)
Fixpoint emit_connect (n : nat) : M X unit :=
  match n with
  | O => mret tt
  | S n => client_removeListener;; onConnect;; emit_connect n
  end.

(** [BaseJudger.prototype.reconnect_] *)
Definition reconnect_ : M X unit :=
  log "Lost connection. Retrying in 5 seconds...";;
  setTimeout connect_ 5000.

(** [BaseJudger.prototype.onClose_] *)
Definition onClose_ (hadError : bool) : M X unit :=
  if negb hadError then reconnect_ else mret tt.

(** [BaseJudger.prototype.onError_] *)
Definition onError_ (err : jsval) : M X unit :=
  log ("Error in connection: " +:+ toString err);;
  reconnect_.

(** [BaseJudger.prototype.start]: the first dial.  The listeners it
    registers for ['data'], ['error'] and ['close'] are the cases of
    [handler] below. *)
Definition start : M X unit := connect_.

(** [new Buffer(...)] in this file, where [Buffer] names the module
    [require('buffer')] and not the class it exports: once the argument is
    evaluated the expression throws.  [instance] is what the class would
    have made. *)
Definition new_Buffer (instance : list byte) : M X (list byte) :=
  throw (TypeError "Buffer is not a constructor").

(** [Buffer.concat(list, totalLength)] in this file: the module has no
    property [concat]. *)
Definition Buffer_concat (buffers : list (Z + chunk)) (totalLength : nat)
  : M X (list byte) :=
  throw (TypeError "Buffer.concat is not a function").

(** [BaseJudger.prototype.sendResult_] *)
Definition sendResult_ (result : Result.t) : M X unit :=
  record (HSendResult result);;
  log ("Done judging. Result: " +:+ Result.result result +:+ ", remote runid"
         +:+ Result.remoteRunid result);;
  buffer ← new_Buffer (Buffer.new_string (JSON_stringify result));
  length ← new_Buffer (Buffer.new_size 4);
  length ← lift (Buffer.writeIntBE length (Buffer.length buffer) 0 4);
  client_write length;;
  client_write buffer.

(** The local object [result] that [onFailed] has built when it returns. *)
Definition onFailed_result (info : Info.t) (reason : jsval) : Result.t :=
  {| Result.type := RESULT_REPORT_;
     Result.runid := Info.runid info;
     Result.memoryUsed := "0";
     Result.timeUsed := "0";
     Result.remoteRunid := "0";
     Result.compileInfo := Some EmptyString;
     Result.result :=
       if loose_eq reason ERRORS.COMPILE_ERROR then "Compile Error"
       else if loose_eq reason ERRORS.SAME_CODE then "Judge Error (Same Code)"
       else if loose_eq reason ERRORS.INVALID_LANGUAGE
            then "Judge Error (Invalid Language)"
       else "Judge Error" |}.

(** [BaseJudger.prototype.onFailed]: the body logs, builds [result] and
    ends there. *)
Definition onFailed (info : Info.t) (reason : jsval) : M X unit :=
  log ("Submit failed, reason: " +:+ toString reason
         +:+ ". Report back to dispatcher");;
  record (HFailed info reason (onFailed_result info reason)).

Variable m : Methods X.

(** [BaseJudger.prototype.onResult_] *)
Definition onResult_ (result : Result.t) : M X unit :=
  if String.eqb (Result.result result) "Compile Error" then
    p ← (record HGetCompileInfo;; getCompileInfo m);
    then_ p
      (fun info => sendResult_ (Result.set_compileInfo info result))
      (fun _ =>
         log "Error in getting compile info, use empty info instead.";;
         sendResult_ (Result.set_compileInfo EmptyString result))
  else sendResult_ result.

(** [BaseJudger.prototype.onSubmitted_]; the rejection handler
    [(err) => this.onFailed.bind(this, info, err)] builds a bound
    function and returns it. *)
Definition onSubmitted_ (info : Info.t) : M X unit :=
  p ← (record HGetStatus;; getStatus m);
  then_ p
    (fun status =>
       onResult_ {| Result.type := RESULT_REPORT_;
                    Result.runid := Info.runid info;
                    Result.memoryUsed := Status.memoryUsed status;
                    Result.timeUsed := Status.timeUsed status;
                    Result.result := Status.result status;
                    Result.remoteRunid := Status.remoteRunid status;
                    Result.compileInfo := None |})
    (fun err => mret tt).

(** [this.getWaitTime()] *)
Definition call_getWaitTime : M X Z :=
  match getWaitTime m with
  | Some f => record HGetWaitTime;; f
  | None => throw (TypeError "this.getWaitTime is not a function")
  end.

(** [BaseJudger.prototype.judge_] *)
Definition judge_ (info : Info.t) : M X unit :=
  p ← (record (HSubmit info);; submit m info);
  then_ p (fun _ => onSubmitted_ info) (fun err =>
    log ("Error: " +:+ toString err);;
    log "Submit failed, assume not logged in.";;
    p ← (record HLogin;; login m);
    then_ p (fun _ =>
      p ← (record (HSubmit info);; submit m info);
      then_ p (fun _ => onSubmitted_ info) (fun err =>
        log ("Error: " +:+ toString err);;
        log "Submit failed, assume too fast.";;
        ms ← call_getWaitTime;
        setTimeout
          (p ← (record (HSubmit info);; submit m info);
           then_ p (fun _ => onSubmitted_ info) (fun err => mret tt))
          ms))
      (fun _ => onFailed info (JString ERRORS.LOGIN_FAILED))).

(** [BaseJudger.prototype.maybeJudge_].  One [try] block covers the
    translation and the call of [login]; [info] is the same object in
    both, with [language] reassigned once the translation has returned,
    so the [catch] clause is written once for each of the two. *)
Definition maybeJudge_ (info : Info.t) : M X unit :=
  translated ← try_catch
    (language ← getLanguage m (Info.language info); mret (Some language))
    (fun err => onFailed info (JString ERRORS.INVALID_LANGUAGE);; mret None);
  match translated with
  | None => mret tt
  | Some language =>
      let info := Info.set_language language info in
      try_catch
        (st ← this;
         if negb (loggedIn_ st) then
           p ← (record HLogin;; login m);
           then_ p (fun _ => judge_ info)
                   (fun _ => onFailed info (JString ERRORS.LOGIN_FAILED))
         else mret tt)
        (fun err => onFailed info (JString ERRORS.INVALID_LANGUAGE))
  end.

(** [BaseJudger.prototype.onData_].  On a string, [data.readIntBE] is
    [undefined] and the call throws before anything is assigned. *)
Definition onData_ (data : chunk) : M X unit :=
  st ← this;
  (if receivedBytes_ st =? 0 then
     match data with
     | Text _ => throw (TypeError "data.readIntBE is not a function")
     | Bytes buf =>
         n ← lift (Buffer.readIntBE buf 0 4);
         modify (set_receivedBytes_ n);;
         modify (set_readBytes_ (Buffer.length buf - 4));;
         modify (set_receivedData_ (Some (Buffer.slice buf 4)))
     end
   else
     modify (set_readBytes_ (chunk_length data));;
     joined ← Buffer_concat [inl (receivedBytes_ st); inr data] 2;
     modify (set_receivedData_ (Some joined)));;
  st ← this;
  if readBytes_ st =? receivedBytes_ st then
    text ← match receivedData_ st with
           | Some buf => mret (Buffer.toString buf)
           | None => throw (TypeError "Cannot read property 'toString' of null")
           end;
    info ← match JSON_parse text with
           | Some info => mret info
           | None => throw (SyntaxError "Unexpected token")
           end;
    modify (set_receivedBytes_ 0);;
    maybeJudge_ info
  else mret tt.

(** The socket events the handlers are registered for by [start], and
    the completion of a [connect]. *)
Inductive event : Type :=
  | Connect
  | Data (data : chunk)
  | SocketError (err : jsval)
  | Close (hadError : bool).

Definition handler (ev : event) : M X unit :=
  match ev with
  | Connect => st ← this; emit_connect (connectListeners (client_ st))
  | Data data => onData_ data
  | SocketError err => onError_ err
  | Close hadError => onClose_ hadError
  end.

(** One turn of the event loop: nothing runs any more once an exception
    has reached the loop. *)
Definition dispatch (st : Judger X) (ev : event) : Judger X :=
  match uncaught st with
  | Some _ => st
  | None =>
      match handler ev st with
      | (Normal _, st') => st'
      | (Throw e, st') => set_uncaught (Some e) st'
      end
  end.

Definition run (evs : list event) (st : Judger X) : Judger X :=
  fold_left dispatch evs st.
End Prototype.
End BaseJudger.

(** ** a2ojjudger.js *)

Module A2ojJudger.

(** The fields the constructor adds.  The cookie jar [cookie_] is opaque
    to the judger and left out.  [responses] and [clock] describe the
    world: the responses the site gives to the login and submit requests,
    in order (none left: the request is never answered), and the
    successive readings of [Date.now]. *)
Record fields : Type := mk {
  username_ : string;
  password_ : string;
  timeout_ : Z;
  statusUrl_ : option string;
  responses : list response;
  clock : list Z
}.

Definition set_statusUrl_ (u : option string) (x : fields) : fields :=
  mk (username_ x) (password_ x) (timeout_ x) u (responses x) (clock x).
Definition set_responses (r : list response) (x : fields) : fields :=
  mk (username_ x) (password_ x) (timeout_ x) (statusUrl_ x) r (clock x).
Definition set_clock (c : list Z) (x : fields) : fields :=
  mk (username_ x) (password_ x) (timeout_ x) (statusUrl_ x) (responses x) c.

Definition languageTable_ : gmap string string :=
  list_to_map
    [("1", "41"); ("2", "11"); ("3", "10"); ("4", "22"); ("5", "4");
     ("6", "27"); ("7", "5"); ("8", "3"); ("9", "17"); ("10", "7")]%string.

(** The property names every object literal inherits from
    [Object.prototype]. *)
Definition Object_prototype : list string :=
  ["constructor"; "__defineGetter__"; "__defineSetter__"; "hasOwnProperty";
   "__lookupGetter__"; "__lookupSetter__"; "isPrototypeOf";
   "propertyIsEnumerable"; "toString"; "valueOf"; "__proto__";
   "toLocaleString"]%string.

(** [this.languageTable_[language]] *)
Definition languageTable_get (language : jsval) : jsval :=
  let key := toString language in
  match languageTable_ !! key with
  | Some id => JString id
  | None =>
      if bool_decide (key ∈ Object_prototype) then JInherited key
      else JUndefined
  end.

(** [var A2ojJudger = function(username, password, timeout) {...}], in a
    world that answers with [responses] and shows the time [clock]. *)
Definition new (username password : string) (timeout : Z)
    (responses : list response) (clock : list Z) : Judger fields :=
  BaseJudger.new ("A2OJ:" +:+ username)
    {| username_ := username; password_ := password; timeout_ := timeout;
       statusUrl_ := None; responses := responses; clock := clock |}.

(** [Unirest.<method>(url)....send(form).end(callback)]: the request goes
    out; the result is the response the callback will be given. *)
Definition Unirest (method url : string) (form : list (string * jsval))
  : M fields (option response) :=
  record (HRequest (mk_request method url form));;
  st ← this;
  match responses (ext st) with
  | [] => mret None
  | r :: rest => modify (set_ext (set_responses rest (ext st)));; mret (Some r)
  end.

(** [s.indexOf(needle) >= 0] *)
Definition contains (s needle : string) : bool :=
  bool_decide (is_Some (String.index 0 needle s)).

(** [A2ojJudger.prototype.getLanguage] *)
Definition getLanguage (language : jsval) : M fields jsval :=
  if negb (truthy (languageTable_get language)) then
    throw (JString "Invalid language")
  else mret (languageTable_get language).

(** [A2ojJudger.prototype.getCompileInfo] *)
Definition getCompileInfo : M fields (promise string) :=
  throw (Error "GetCompileInfo must be implemented!").

(** [A2ojJudger.prototype.login] *)
Definition login : M fields (promise unit) :=
  BaseJudger.log "Start to login.";;
  st ← this;
  answer ← Unirest "POST" "http://www.a2oj.com/SignInCode.jsp"
             [("Username", JString (username_ (ext st)));
              ("Password", JString (password_ (ext st)));
              ("rm", JString "on")]%string;
  match answer with
  | None => mret Pending
  | Some response =>
      if negb (ok response) then
        BaseJudger.log "Fail to login, server error.";;
        mret (Rejected JUndefined)
      else if contains (body response)
                ("action=" +:+ quote +:+ "SignInCode.jsp" +:+ quote) then
        BaseJudger.log "Fail to login, please check username and password.";;
        mret (Rejected JUndefined)
      else
        BaseJudger.log "Login succeed.";;
        mret (Resolved tt)
  end.

(** [A2ojJudger.prototype.submit].  The [end] callback runs from the event
    loop: the TypeError of [response.url.toString()] on a response without
    [url] is uncaught and leaves the promise unsettled. *)
Definition submit (info : Info.t) : M fields (promise unit) :=
  answer ← Unirest "POST" "http://www.a2oj.com/SubmitCode.jsp"
             [("ProblemID", JString (Info.vid info));
              ("LanguageID", Info.language info);
              ("Code", JString (Info.source info))]%string;
  match answer with
  | None => mret Pending
  | Some response =>
      let needle :=
        "<center>Your solution has been " +:+ "submitted successfully</center>" in
      if negb (ok response) then
        BaseJudger.log "Fail to submit, server error.";;
        mret (Rejected JUndefined)
      else if negb (contains (body response) needle) then
        BaseJudger.log "Fail to submit, something is not right in this run.";;
        mret (Rejected JUndefined)
      else
        BaseJudger.log "Submit succeed.";;
        match url response with
        | Some u =>
            modify (fun st => set_ext (set_statusUrl_ (Some u) (ext st)) st);;
            mret (Resolved tt)
        | None =>
            modify (set_uncaught
              (Some (TypeError "Cannot read property 'toString' of undefined")));;
            mret Pending
        end
  end.

(** The [while] loop of [getStatus]: one reading of [Date.now] per test of
    the condition, one GET request per iteration, its [end] callback
    being [function (response) {}].  When the readings end the loop is
    still running. *)
Fixpoint poll (statusUrl : string) (startTime limit : Z) (readings : list Z)
  : M fields unit :=
  match readings with
  | [] => modify (fun st => set_ext (set_clock [] (ext st)) st)
  | now :: later =>
      if now - startTime <? limit then
        record (HRequest (mk_request "GET" statusUrl []));;
        poll statusUrl startTime limit later
      else modify (fun st => set_ext (set_clock later (ext st)) st)
  end.

(** [A2ojJudger.prototype.getStatus]: the executor calls [reject] when
    there is no status url; otherwise it runs the loop and returns, having
    called neither [resolve] nor [reject]. *)
Definition getStatus : M fields (promise Status.t) :=
  st ← this;
  if negb (truthy (from_option JString JUndefined (statusUrl_ (ext st)))) then
    BaseJudger.log "Fail to fetch status, unable to construct url.";;
    mret (Rejected JUndefined)
  else
    match clock (ext st) with
    | [] => mret Pending
    | startTime :: readings =>
        poll (default EmptyString (statusUrl_ (ext st))) startTime
             (timeout_ (ext st) * 1000) readings;;
        mret Pending
    end.

Definition methods : BaseJudger.Methods fields :=
  {| BaseJudger.getLanguage := getLanguage;
     BaseJudger.getCompileInfo := getCompileInfo;
     BaseJudger.login := login;
     BaseJudger.submit := submit;
     BaseJudger.getStatus := getStatus;
     BaseJudger.getWaitTime := None |}.

End A2ojJudger.

(** ** A scripted backend

    A backend whose methods settle the way a script says: the [n]-th call of
    [login] as [login_script n], the [n]-th call of [submit] as
    [submit_script n], every language code translated to itself. *)
Module Stub.

Record fields : Type := mk {
  login_script : nat -> promise unit;
  submit_script : nat -> promise unit;
  status_script : promise Status.t;
  compileInfo_script : promise string;
  waitTime : Z;
  logins : nat;
  submits : nat
}.

Definition login : M fields (promise unit) :=
  st ← this;
  let x := ext st in
  modify (set_ext (mk (login_script x) (submit_script x) (status_script x)
                      (compileInfo_script x) (waitTime x)
                      (S (logins x)) (submits x)));;
  mret (login_script x (logins x)).

Definition submit (info : Info.t) : M fields (promise unit) :=
  st ← this;
  let x := ext st in
  modify (set_ext (mk (login_script x) (submit_script x) (status_script x)
                      (compileInfo_script x) (waitTime x)
                      (logins x) (S (submits x))));;
  mret (submit_script x (submits x)).

Definition methods : BaseJudger.Methods fields :=
  {| BaseJudger.getLanguage := fun language => mret language;
     BaseJudger.getCompileInfo :=
       st ← this; mret (compileInfo_script (ext st));
     BaseJudger.login := login;
     BaseJudger.submit := submit;
     BaseJudger.getStatus := st ← this; mret (status_script (ext st));
     BaseJudger.getWaitTime := Some (st ← this; mret (waitTime (ext st))) |}.

Definition new (login_script submit_script : nat -> promise unit)
    (status_script : promise Status.t) (compileInfo_script : promise string)
    (waitTime : Z) : Judger fields :=
  BaseJudger.new "stub"
    (mk login_script submit_script status_script compileInfo_script
        waitTime 0 0).

End Stub.

(** ** A JSON codec for flat objects

    An instance of [JSON] for the examples: objects whose values are strings
    free of quotes, backslashes and control characters, written without
    white space.  [stringify] lists the properties in the order in which
    [getStatus], [onSubmitted_] and [onResult_] create them. *)
Module FlatJSON.

Definition property (key value : string) : string :=
  quote +:+ key +:+ quote +:+ ":" +:+ quote +:+ value +:+ quote.

Definition stringify (r : Result.t) : string :=
  "{" +:+ property "memoryUsed" (Result.memoryUsed r)
      +:+ "," +:+ property "timeUsed" (Result.timeUsed r)
      +:+ "," +:+ property "result" (Result.result r)
      +:+ "," +:+ property "remoteRunid" (Result.remoteRunid r)
      +:+ "," +:+ quote +:+ "type" +:+ quote +:+ ":" +:+ pretty (Result.type r)
      +:+ "," +:+ property "runid" (Result.runid r)
      +:+ match Result.compileInfo r with
          | Some c => "," +:+ property "compileInfo" c
          | None => EmptyString
          end
      +:+ "}".

(** The characters up to the next double quote, and what follows it. *)
Fixpoint until_quote (s : string) : option (string * string) :=
  match s with
  | EmptyString => None
  | String c rest =>
      if Ascii.eqb c (ascii_of_nat 34) then Some (EmptyString, rest)
      else '(word, rest') ← until_quote rest; Some (String c word, rest')
  end.

(** A quoted string at the head of [s]. *)
Definition quoted (s : string) : option (string * string) :=
  match s with
  | String c rest => if Ascii.eqb c (ascii_of_nat 34) then until_quote rest else None
  | EmptyString => None
  end.

(** The properties after the opening brace. *)
Fixpoint properties (fuel : nat) (s : string) : option (list (string * string)) :=
  match fuel with
  | O => None
  | S fuel =>
      '(key, s) ← quoted s;
      match s with
      | String ":" s =>
          '(value, s) ← quoted s;
          match s with
          | "}"%string => Some [(key, value)]
          | String "," s => cons (key, value) <$> properties fuel s
          | _ => None
          end
      | _ => None
      end
  end.

Fixpoint assoc (key : string) (l : list (string * string)) : option string :=
  match l with
  | [] => None
  | (k, v) :: rest => if String.eqb k key then Some v else assoc key rest
  end.

Definition parse (s : string) : option Info.t :=
  match s with
  | String "{" s =>
      l ← properties (String.length s) s;
      runid ← assoc "runid" l;
      vid ← assoc "vid" l;
      language ← assoc "language" l;
      source ← assoc "source" l;
      Some (Info.mk runid vid (JString language) source)
  | _ => None
  end.

Definition codec : JSON :=
  {| JSON_stringify := stringify; JSON_parse := parse |}.

End FlatJSON.

(** ** Example jobs *)

Definition job7 : Info.t :=
  Info.mk "7" "100A" (JString "1") "int main() {}".

Definition job7_text : string :=
  "{" +:+ FlatJSON.property "runid" "7" +:+ "," +:+ FlatJSON.property "vid" "100A"
      +:+ "," +:+ FlatJSON.property "language" "1"
      +:+ "," +:+ FlatJSON.property "source" "int main() {}" +:+ "}".


Definition accepted : Status.t := Status.mk "256" "15" "Accepted" "999".

(** ** Observations

    What the dispatcher sees is [sent]: the chunks written to the socket.
    The wire format of a frame is [wire]. *)

Definition sent {X} (st : Judger X) : list (list byte) := written (client_ st).

Definition wire (payload : list byte) : list byte :=
  Buffer.bytesBE 4 (Buffer.length payload) ++ payload.

(** The events a socket emits: its ['data'] events carry strings when an
    encoding has been set on it and Buffers when none has. *)
Definition delivers (socket : Socket) (ev : BaseJudger.event) : Prop :=
  match ev with
  | BaseJudger.Data (Text _) => encoding socket <> None
  | BaseJudger.Data (Bytes _) => encoding socket = None
  | _ => True
  end.

Definition is_data (ev : BaseJudger.event) : bool :=
  match ev with BaseJudger.Data _ => true | _ => false end.

Definition is_submit (h : hevent) : bool :=
  match h with HSubmit _ => true | _ => false end.
Definition is_failed (h : hevent) : bool :=
  match h with HFailed _ _ _ => true | _ => false end.
Definition is_report (h : hevent) : bool :=
  match h with HSendResult _ => true | _ => false end.

(** The steps of the pipeline proper: logins, submissions, waits, status
    requests and failure reports. *)
Definition is_pipeline_step (h : hevent) : bool :=
  match h with
  | HLogin | HSubmit _ | HGetWaitTime | HTimer _ | HGetStatus | HFailed _ _ _ => true
  | _ => false
  end.

(** The script that settles the first calls as [first] says and every later
    call as [later]. *)
Definition script {A} (first : list (promise A)) (later : promise A) (n : nat)
  : promise A :=
  nth n first later.

(** The state a method call leaves behind. *)
Definition after {X A} (c : M X A) (st : Judger X) : Judger X := snd (c st).

(** The states an A2OJ judger can be in: started on some account, in some
    world, and then driven by any sequence of socket events. *)
Definition reachable {json : JSON} (st : Judger A2ojJudger.fields) : Prop :=
  exists username password timeout responses clock evs,
    st = BaseJudger.run A2ojJudger.methods evs
           (after BaseJudger.start
              (A2ojJudger.new username password timeout responses clock)).

(** The state [onFailed] leaves: one more console line, one more entry in
    the history, and nothing else. *)
Definition failed_state {X} (info : Info.t) (reason : jsval) (st : Judger X) : Judger X :=
  mk_judger (client_ st) (judgerId_ st) (receivedData_ st) (receivedBytes_ st)
    (readBytes_ st) (loggedIn_ st) (ext st)
    (console st ++
       ["[" +:+ judgerId_ st +:+ "]: " +:+
        ("Submit failed, reason: " +:+ toString reason
           +:+ ". Report back to dispatcher")])
    (history st ++ [HFailed info reason (BaseJudger.onFailed_result info reason)])
    (uncaught st).

(** A relation between the state before and the state after that every
    step of the engine respects: a preorder that admits all the updates the
    engine itself makes. *)
Class Frame {X} (R : Judger X -> Judger X -> Prop) : Prop := {
  frame_refl : forall st, R st st;
  frame_trans : forall st1 st2 st3, R st1 st2 -> R st2 st3 -> R st1 st3;
  frame_history : forall st h, R st (set_history (history st ++ [h]) st);
  frame_console : forall st c, R st (set_console c st);
  frame_client : forall st c, R st (set_client_ c st);
  frame_uncaught : forall st e, R st (set_uncaught e st);
  frame_ext : forall st x, R st (set_ext x st);
  frame_receivedData : forall st d, R st (set_receivedData_ d st);
  frame_receivedBytes : forall st n, R st (set_receivedBytes_ n st);
  frame_readBytes : forall st n, R st (set_readBytes_ n st)
}.

Definition respects {X A} (R : Judger X -> Judger X -> Prop) (c : M X A) : Prop :=
  forall st, R st (after c st).

(** The flag [loggedIn_] is left as it was. *)
Definition same_login {X} (st st' : Judger X) : Prop :=
  loggedIn_ st' = loggedIn_ st.

(** The history is only ever extended. *)
Definition extends {X} (st st' : Judger X) : Prop :=
  exists more, history st' = history st ++ more.

(** The methods of a backend respect [R]. *)
Definition methods_respect {X} (R : Judger X -> Judger X -> Prop)
    (m : BaseJudger.Methods X) : Prop :=
  (forall l, respects R (BaseJudger.getLanguage m l))
  /\ respects R (BaseJudger.getCompileInfo m)
  /\ respects R (BaseJudger.login m)
  /\ (forall info, respects R (BaseJudger.submit m info))
  /\ respects R (BaseJudger.getStatus m)
  /\ (forall f, BaseJudger.getWaitTime m = Some f -> respects R f).

(** ** Example inputs *)

Definition job99 : Info.t :=
  Info.mk "8" "100A" (JString "99") "int main() {}".

Definition job99_text : string :=
  "{" +:+ FlatJSON.property "runid" "8" +:+ "," +:+ FlatJSON.property "vid" "100A"
      +:+ "," +:+ FlatJSON.property "language" "99"
      +:+ "," +:+ FlatJSON.property "source" "int main() {}" +:+ "}".

(** The judger of [config.users], started, in a world [responses], [clock]. *)
Definition a2oj (responses : list response) (clock : list Z)
  : Judger A2ojJudger.fields :=
  after BaseJudger.start
    (A2ojJudger.new "bnutest" "bnutest" 120 responses clock).

(** ** Observations on whole runs *)

(** The chunk [onConnect] writes and the address [connect_] dials. *)
Definition secret_chunk : list byte := Buffer.new_string config.dispatcher.secret.
Definition dispatcher_address : string * Z :=
  (config.dispatcher.host, config.dispatcher.port).

(** The events that make the judger dial again, and the completed
    connections, in a sequence of socket events. *)
Definition loses_connection (ev : BaseJudger.event) : bool :=
  match ev with
  | BaseJudger.SocketError _ | BaseJudger.Close false => true
  | _ => false
  end.
Definition is_connect (ev : BaseJudger.event) : bool :=
  match ev with BaseJudger.Connect => true | _ => false end.

(** The dials that no ['connect'] event has answered yet after the events
    [evs], when [pending] of them were unanswered before: the dials made
    since the last ['connect'] event. *)
Fixpoint unanswered (evs : list BaseJudger.event) (pending : nat) : nat :=
  match evs with
  | [] => pending
  | ev :: evs =>
      unanswered evs
        (if is_connect ev then O
         else if loses_connection ev then S pending else pending)
  end.

(** The events that come before the first ['data'] event. *)
Fixpoint before_data (evs : list BaseJudger.event) : list BaseJudger.event :=
  match evs with
  | [] => []
  | ev :: evs => if is_data ev then [] else ev :: before_data evs
  end.

(** A relation between the state before and the state after that the
    pipeline respects although it need not admit writes to the socket or
    changes of the subclass fields: a preorder closed under what the engine
    does to its own fields, to the history and to the console through
    [log]. *)
Class Keeps {X} (R : Judger X -> Judger X -> Prop) : Prop := {
  keeps_refl : forall st, R st st;
  keeps_trans : forall st1 st2 st3, R st1 st2 -> R st2 st3 -> R st1 st3;
  keeps_history : forall st h, R st (set_history (history st ++ [h]) st);
  keeps_uncaught : forall st e, R st (set_uncaught e st);
  keeps_logged : forall st message,
    R st (set_console
            (console st ++ ["[" +:+ judgerId_ st +:+ "]: " +:+ message]) st);
  keeps_receivedData : forall st d, R st (set_receivedData_ d st);
  keeps_receivedBytes : forall st n, R st (set_receivedBytes_ n st);
  keeps_readBytes : forall st n, R st (set_readBytes_ n st)
}.

(** The socket is left as it was. *)
Definition same_client {X} (st st' : Judger X) : Prop := client_ st' = client_ st.

(** The fields the source marks [@const] are left as they were. *)
Definition same_account (st st' : Judger A2ojJudger.fields) : Prop :=
  judgerId_ st' = judgerId_ st
  /\ A2ojJudger.username_ (ext st') = A2ojJudger.username_ (ext st)
  /\ A2ojJudger.password_ (ext st') = A2ojJudger.password_ (ext st)
  /\ A2ojJudger.timeout_ (ext st') = A2ojJudger.timeout_ (ext st).

(** A console line written through [log] by the judger [id]. *)
Definition tagged (id line : string) : Prop :=
  exists message, line = "[" +:+ id +:+ "]: " +:+ message.

(** The console only grows, by lines tagged with the judger's id. *)
Definition logs_tagged {X} (st st' : Judger X) : Prop :=
  judgerId_ st' = judgerId_ st
  /\ exists more, console st' = console st ++ more
                  /\ Forall (tagged (judgerId_ st)) more.

(** The page of the site that carries the sign-in form, and the one that
    confirms a submission. *)
Definition signin_form : string :=
  "action=" +:+ quote +:+ "SignInCode.jsp" +:+ quote.
Definition submitted_banner : string :=
  "<center>Your solution has been " +:+ "submitted successfully</center>".

(** The state [st] with the session flag set.  No function of the source
    sets the flag. *)
Definition marked_authenticated {X} (st : Judger X) : Judger X :=
  mk_judger (client_ st) (judgerId_ st) (receivedData_ st) (receivedBytes_ st)
    (readBytes_ st) true (ext st) (console st) (history st) (uncaught st).

(** A backend with the language table and the submissions of the scripted
    backend and the [login] of the base class, which throws. *)
Definition stub_without_login : BaseJudger.Methods Stub.fields :=
  {| BaseJudger.getLanguage := BaseJudger.getLanguage Stub.methods;
     BaseJudger.getCompileInfo := BaseJudger.getCompileInfo Stub.methods;
     BaseJudger.login := BaseJudger.login BaseJudger.prototype;
     BaseJudger.submit := BaseJudger.submit Stub.methods;
     BaseJudger.getStatus := BaseJudger.getStatus Stub.methods;
     BaseJudger.getWaitTime := BaseJudger.getWaitTime Stub.methods |}.

(** * Properties *)

(** ** Integers in buffers *)

Lemma Z_of_byte_of_Z (z : Z) : Buffer.Z_of_byte (Buffer.byte_of_Z z) = z mod 256.
Proof.
  unfold Buffer.Z_of_byte, Buffer.byte_of_Z.
  assert (Hr : 0 <= z mod 256 < 256) by (apply Z.mod_pos_bound; lia).
  destruct (Byte.of_N (Z.to_N (z mod 256))) as [b|] eqn:E; simpl.
  - apply Byte.to_of_N in E. rewrite E. apply Z2N.id. lia.
  - apply Byte.of_N_None_iff in E. lia.
Qed.

Lemma unsignedBE_bytesBE_4 (v : Z) :
  0 <= v < 2 ^ 32 -> Buffer.unsignedBE (Buffer.bytesBE 4 v) = v.
Proof.
  intros Hv. unfold Buffer.unsignedBE, Buffer.bytesBE. simpl.
  rewrite !Z_of_byte_of_Z.
  change (2 ^ 24) with 16777216. change (2 ^ 16) with 65536.
  change (2 ^ 8) with 256. change (2 ^ 0) with 1.
  change (2 ^ 32) with 4294967296 in Hv.
  Z.div_mod_to_equations. lia.
Qed.

Lemma readIntBE_frame (v : Z) (payload : list byte) :
  0 <= v < 2 ^ 31 ->
  Buffer.readIntBE (Buffer.bytesBE 4 v ++ payload) 0 4 = Normal v.
Proof.
  intros Hv. unfold Buffer.readIntBE.
  assert (Hlen : List.length (Buffer.bytesBE 4 v) = 4%nat) by reflexivity.
  rewrite length_app, Hlen. simpl (_ <=? _)%nat.
  rewrite drop_0, (take_app_length' _ _ 4 (eq_sym Hlen)).
  rewrite unsignedBE_bytesBE_4 by lia.
  change (2 ^ (8 * Z.of_nat 4 - 1)) with (2 ^ 31).
  destruct (Z.ltb_spec v (2 ^ 31)); [reflexivity | lia].
Qed.

(** ** Running the monad *)

Ltac run_m :=
  repeat (unfold mbind, M_bind, mret, M_ret, this, modify, throw, lift, record,
            console_log, client_write, client_connect, client_removeListener,
            try_catch, absorb, setTimeout, BaseJudger.log in *;
          cbn -[Z.mul Z.pow Z.sub] in * ).

(** [sendResult_] logs and then throws at its first [new Buffer]: nothing is
    written. *)
Lemma sendResult_throws {json : JSON} {X} (r : Result.t) (st : Judger X) :
  BaseJudger.sendResult_ r st =
    (Throw (TypeError "Buffer is not a constructor"),
     set_console
       (console st ++
          ["[" +:+ judgerId_ st +:+ "]: " +:+
           ("Done judging. Result: " +:+ Result.result r +:+ ", remote runid"
              +:+ Result.remoteRunid r)])
       (set_history (history st ++ [HSendResult r]) st)).
Proof. reflexivity. Qed.

(** ** Relations every step respects *)

Create HintDb respect discriminated.

Section Respect.
Context {X : Type} (R : Judger X -> Judger X -> Prop) {frame : Frame R}.

Lemma respects_ret {A} (a : A) : respects R (mret a : M X A).
Proof. intros st. apply frame_refl. Qed.

Lemma respects_bind {A B} (f : A -> M X B) (c : M X A) :
  respects R c -> (forall a, respects R (f a)) -> respects R (mbind f c).
Proof.
  intros Hc Hf st. specialize (Hc st). unfold after in *.
  unfold mbind, M_bind. destruct (c st) as [[a | e] st']; simpl in *.
  - eapply frame_trans; [exact Hc | apply Hf].
  - exact Hc.
Qed.

Lemma respects_this : respects R (this : M X _).
Proof. intros st. apply frame_refl. Qed.

Lemma respects_throw {A} (e : jsval) : respects R (throw e : M X A).
Proof. intros st. apply frame_refl. Qed.

Lemma respects_lift {A} (c : completion A) : respects R (lift c : M X A).
Proof. intros st. apply frame_refl. Qed.

Lemma respects_modify (f : Judger X -> Judger X) :
  (forall st, R st (f st)) -> respects R (modify f).
Proof. intros Hf st. apply Hf. Qed.

Lemma respects_record (h : hevent) : respects R (record h : M X unit).
Proof. intros st. apply frame_history. Qed.

Lemma respects_console_log (line : string) : respects R (console_log line : M X unit).
Proof. intros st. apply frame_console. Qed.

Lemma respects_client_write (chunk : list byte) :
  respects R (client_write chunk : M X unit).
Proof. intros st. apply frame_client. Qed.

Lemma respects_client_connect (host : string) (port : Z) :
  respects R (client_connect host port : M X unit).
Proof. intros st. apply frame_client. Qed.

Lemma respects_try_catch {A} (body : M X A) (handler : jsval -> M X A) :
  respects R body -> (forall e, respects R (handler e)) ->
  respects R (try_catch body handler).
Proof.
  intros Hb Hh st. specialize (Hb st). unfold after, try_catch in *.
  destruct (body st) as [[a | e] st']; simpl in *.
  - exact Hb.
  - eapply frame_trans; [exact Hb | apply Hh].
Qed.

Lemma respects_absorb (callback : M X unit) :
  respects R callback -> respects R (absorb callback).
Proof.
  intros Hc st. specialize (Hc st). unfold after, absorb in *.
  destruct (callback st) as [[a | e] st']; simpl in *.
  - exact Hc.
  - eapply frame_trans; [exact Hc | apply frame_history].
Qed.

Lemma respects_then {A} (p : promise A) (onFulfilled : A -> M X unit)
    (onRejected : jsval -> M X unit) :
  (forall a, respects R (onFulfilled a)) -> (forall e, respects R (onRejected e)) ->
  respects R (then_ p onFulfilled onRejected).
Proof.
  intros Hf Hr. destruct p; simpl.
  - apply respects_absorb, Hf.
  - apply respects_absorb, Hr.
  - apply respects_ret.
Qed.

Lemma respects_setTimeout (callback : M X unit) (ms : Z) :
  respects R callback -> respects R (setTimeout callback ms).
Proof.
  intros Hc st. unfold after, setTimeout.
  specialize (Hc (set_history (history st ++ [HTimer ms]) st)). unfold after in Hc.
  destruct (callback _) as [[a | e] st']; simpl in *.
  - eapply frame_trans; [apply frame_history | exact Hc].
  - eapply frame_trans; [apply frame_history |].
    eapply frame_trans; [exact Hc | apply frame_uncaught].
Qed.

End Respect.

#[export] Hint Resolve respects_ret respects_this respects_throw respects_lift
  respects_record respects_console_log respects_client_write
  respects_client_connect : respect.

(** Decomposes a goal [respects R c] along the structure of [c]. *)
Ltac respect_step :=
  lazymatch goal with
  | |- Frame _ => exact _
  | |- respects _ (mbind _ _) => apply respects_bind; try exact _; [| intros ?]
  | |- respects _ (try_catch _ _) => apply respects_try_catch; try exact _; [| intros ?]
  | |- respects _ (then_ _ _ _) => apply respects_then; try exact _; intros ?
  | |- respects _ (setTimeout _ _) => apply respects_setTimeout; try exact _
  | |- respects _ (modify _) =>
      apply respects_modify; intros ?;
      first [ apply frame_receivedData | apply frame_receivedBytes
            | apply frame_readBytes | apply frame_ext | apply frame_uncaught ]
  | |- respects _ (if ?b then _ else _) => destruct b
  | |- respects _ (match ?x with _ => _ end) => destruct x
  | |- respects _ _ => solve [eauto with respect]
  end.
Ltac respect := repeat respect_step.

Section RespectEngine.
Context {X : Type} {json : JSON} (R : Judger X -> Judger X -> Prop) {frame : Frame R}.

Lemma respects_log (message : string) : respects R (BaseJudger.log message : M X unit).
Proof. unfold BaseJudger.log. respect. Qed.
Hint Resolve respects_log : respect.

Lemma respects_connect_ : respects R (BaseJudger.connect_ : M X unit).
Proof. unfold BaseJudger.connect_. respect. Qed.
Hint Resolve respects_connect_ : respect.

Lemma respects_onConnect : respects R (BaseJudger.onConnect : M X unit).
Proof. unfold BaseJudger.onConnect. respect. Qed.

Lemma respects_emit_connect (n : nat) : respects R (BaseJudger.emit_connect n : M X unit).
Proof.
  induction n as [| n IH]; simpl.
  - respect.
  - apply respects_bind; try exact _; [| intros _].
    + unfold client_removeListener. apply respects_modify. intros st. apply frame_client.
    + apply respects_bind; try exact _; [apply respects_onConnect | intros _; exact IH].
Qed.

Lemma respects_reconnect_ : respects R (BaseJudger.reconnect_ : M X unit).
Proof. unfold BaseJudger.reconnect_. respect. Qed.
Hint Resolve respects_reconnect_ : respect.

Lemma respects_onClose_ (hadError : bool) : respects R (BaseJudger.onClose_ hadError : M X unit).
Proof. unfold BaseJudger.onClose_. respect. Qed.

Lemma respects_onError_ (err : jsval) : respects R (BaseJudger.onError_ err : M X unit).
Proof. unfold BaseJudger.onError_. respect. Qed.

Lemma respects_sendResult_ (r : Result.t) : respects R (BaseJudger.sendResult_ r : M X unit).
Proof. unfold BaseJudger.sendResult_, BaseJudger.new_Buffer. respect. Qed.
Hint Resolve respects_sendResult_ : respect.

Lemma respects_onFailed (info : Info.t) (reason : jsval) :
  respects R (BaseJudger.onFailed info reason : M X unit).
Proof. unfold BaseJudger.onFailed. respect. Qed.
Hint Resolve respects_onFailed : respect.

Variable m : BaseJudger.Methods X.
Hypothesis Hm : methods_respect R m.

Lemma respects_onResult_ (r : Result.t) : respects R (BaseJudger.onResult_ m r).
Proof.
  destruct Hm as (_ & Hc & _). unfold BaseJudger.onResult_. respect.
Qed.
Hint Resolve respects_onResult_ : respect.

Lemma respects_onSubmitted_ (info : Info.t) : respects R (BaseJudger.onSubmitted_ m info).
Proof.
  destruct Hm as (_ & _ & _ & _ & Hs & _). unfold BaseJudger.onSubmitted_. respect.
Qed.
Hint Resolve respects_onSubmitted_ : respect.

Lemma respects_call_getWaitTime : respects R (BaseJudger.call_getWaitTime m).
Proof.
  destruct Hm as (_ & _ & _ & _ & _ & Hw). unfold BaseJudger.call_getWaitTime.
  destruct (BaseJudger.getWaitTime m) as [f |] eqn:E; respect.
Qed.
Hint Resolve respects_call_getWaitTime : respect.

Lemma respects_judge_ (info : Info.t) : respects R (BaseJudger.judge_ m info).
Proof.
  destruct Hm as (_ & _ & Hl & Hs & _). unfold BaseJudger.judge_. respect.
Qed.
Hint Resolve respects_judge_ : respect.

Lemma respects_maybeJudge_ (info : Info.t) : respects R (BaseJudger.maybeJudge_ m info).
Proof.
  destruct Hm as (Hg & _ & Hl & _). unfold BaseJudger.maybeJudge_. respect.
Qed.
Hint Resolve respects_maybeJudge_ : respect.

Lemma respects_onData_ (data : chunk) : respects R (BaseJudger.onData_ m data).
Proof. unfold BaseJudger.onData_, BaseJudger.Buffer_concat. respect. Qed.

Lemma respects_handler (ev : BaseJudger.event) : respects R (BaseJudger.handler m ev).
Proof.
  destruct ev; simpl.
  - apply respects_bind; try exact _; [respect | intros st].
    apply respects_emit_connect.
  - apply respects_onData_.
  - apply respects_onError_.
  - apply respects_onClose_.
Qed.

Lemma respects_dispatch (st : Judger X) (ev : BaseJudger.event) :
  R st (BaseJudger.dispatch m st ev).
Proof.
  unfold BaseJudger.dispatch. destruct (uncaught st); [apply frame_refl |].
  pose proof (respects_handler ev st) as H. unfold after in H.
  destruct (BaseJudger.handler m ev st) as [[a | e] st']; simpl in *.
  - exact H.
  - eapply frame_trans; [exact H | apply frame_uncaught].
Qed.

Lemma respects_run (evs : list BaseJudger.event) (st : Judger X) :
  R st (BaseJudger.run m evs st).
Proof.
  unfold BaseJudger.run. revert st.
  induction evs as [| ev evs IH]; intros st; simpl.
  - apply frame_refl.
  - eapply frame_trans; [apply respects_dispatch | apply IH].
Qed.

End RespectEngine.

#[export] Instance same_login_frame {X} : Frame (@same_login X).
Proof. split; unfold same_login; intros; simpl; congruence. Qed.

#[export] Instance extends_frame {X} : Frame (@extends X).
Proof.
  split; unfold extends; intros; simpl;
    try (exists []; symmetry; apply app_nil_r).
  - destruct H as [more1 H1], H0 as [more2 H2].
    exists (more1 ++ more2). rewrite H2, H1. symmetry. apply app_assoc.
  - exists [h]. reflexivity.
Qed.

Section RespectBackends.
Context {json : JSON}.

Lemma respects_Unirest R {frame : Frame R} (method url : string) (form : list (string * jsval)) :
  respects R (A2ojJudger.Unirest method url form).
Proof. unfold A2ojJudger.Unirest. respect. Qed.

Lemma respects_poll R {frame : Frame R} (statusUrl : string) (startTime limit : Z)
    (readings : list Z) :
  respects R (A2ojJudger.poll statusUrl startTime limit readings).
Proof.
  induction readings as [| now later IH]; simpl.
  - respect.
  - destruct (now - startTime <? limit); [| respect].
    apply respects_bind; [exact _ | respect | intros _; exact IH].
Qed.

Lemma A2ojJudger_respects R {frame : Frame R} : methods_respect R A2ojJudger.methods.
Proof.
  pose proof (@respects_log _ R frame) as Hlog.
  pose proof (@respects_Unirest R frame) as Hreq.
  pose proof (@respects_poll R frame) as Hpoll.
  repeat split; simpl.
  - intros l. unfold A2ojJudger.getLanguage. respect.
  - unfold A2ojJudger.getCompileInfo. respect.
  - unfold A2ojJudger.login. respect.
  - intros info. unfold A2ojJudger.submit. respect.
  - unfold A2ojJudger.getStatus. respect.
  - discriminate.
Qed.

Lemma Stub_respects R {frame : Frame R} : methods_respect R Stub.methods.
Proof.
  repeat split; simpl.
  - intros l. respect.
  - respect.
  - unfold Stub.login. respect.
  - intros info. unfold Stub.submit. respect.
  - respect.
  - intros f [= <-]. respect.
Qed.

End RespectBackends.

(** ** Equations of the engine *)

Lemma bind_normal {X A B} (f : A -> M X B) (c : M X A) st a st' :
  c st = (Normal a, st') -> mbind f c st = f a st'.
Proof. intros H. unfold mbind, M_bind. rewrite H. reflexivity. Qed.

Lemma bind_throw {X A B} (f : A -> M X B) (c : M X A) st e st' :
  c st = (Throw e, st') -> mbind f c st = (Throw e, st').
Proof. intros H. unfold mbind, M_bind. rewrite H. reflexivity. Qed.

Lemma onFailed_eq {X} (info : Info.t) (reason : jsval) (st : Judger X) :
  BaseJudger.onFailed info reason st = (Normal tt, failed_state info reason st).
Proof. reflexivity. Qed.

Lemma maybeJudge_untranslated {json : JSON} {X} (m : BaseJudger.Methods X)
    (info : Info.t) (st st1 : Judger X) (e : jsval) :
  BaseJudger.getLanguage m (Info.language info) st = (Throw e, st1) ->
  BaseJudger.maybeJudge_ m info st =
    (Normal tt, failed_state info (JString BaseJudger.ERRORS.INVALID_LANGUAGE) st1).
Proof.
  intros H. unfold BaseJudger.maybeJudge_, try_catch, mbind, M_bind.
  cbv beta. rewrite H. reflexivity.
Qed.

Lemma maybeJudge_translated {json : JSON} {X} (m : BaseJudger.Methods X)
    (info : Info.t) (st st1 : Judger X) (language : jsval) :
  BaseJudger.getLanguage m (Info.language info) st = (Normal language, st1) ->
  BaseJudger.maybeJudge_ m info st =
    try_catch
      (if negb (loggedIn_ st1) then
         p ← (record HLogin;; BaseJudger.login m);
         then_ p (fun _ => BaseJudger.judge_ m (Info.set_language language info))
           (fun _ => BaseJudger.onFailed (Info.set_language language info)
                       (JString BaseJudger.ERRORS.LOGIN_FAILED))
       else mret tt)
      (fun _ => BaseJudger.onFailed (Info.set_language language info)
                  (JString BaseJudger.ERRORS.INVALID_LANGUAGE))
      st1.
Proof.
  intros H. unfold BaseJudger.maybeJudge_.
  rewrite (bind_normal _ _ st (Some language) st1).
  - reflexivity.
  - unfold try_catch. rewrite (bind_normal _ _ st language st1 H). reflexivity.
Qed.

(** ** The language table *)

Lemma languageTable_entries_truthy (key id : string) :
  A2ojJudger.languageTable_ !! key = Some id -> truthy (JString id) = true.
Proof.
  intros H.
  assert (Hall : map_Forall (fun _ v => truthy (JString v) = true)
                   A2ojJudger.languageTable_).
  { apply map_Forall_to_list. vm_compute. repeat constructor. }
  exact (Hall key id H).
Qed.

Lemma getLanguage_mapped (language : jsval) (id : string) (st : Judger A2ojJudger.fields) :
  A2ojJudger.languageTable_ !! toString language = Some id ->
  A2ojJudger.getLanguage language st = (Normal (JString id), st).
Proof.
  intros H. unfold A2ojJudger.getLanguage, A2ojJudger.languageTable_get.
  rewrite H, (languageTable_entries_truthy _ _ H). reflexivity.
Qed.

Lemma getLanguage_unmapped (language : jsval) (st : Judger A2ojJudger.fields) :
  A2ojJudger.languageTable_ !! toString language = None ->
  toString language ∉ A2ojJudger.Object_prototype ->
  A2ojJudger.getLanguage language st = (Throw (JString "Invalid language"), st).
Proof.
  intros H Hp. unfold A2ojJudger.getLanguage, A2ojJudger.languageTable_get.
  rewrite H, bool_decide_eq_false_2 by exact Hp. reflexivity.
Qed.

Lemma getLanguage_inherited (key : string) (st : Judger A2ojJudger.fields) :
  key ∈ A2ojJudger.Object_prototype ->
  A2ojJudger.getLanguage (JString key) st = (Normal (JInherited key), st).
Proof.
  intros Hp. unfold A2ojJudger.getLanguage, A2ojJudger.languageTable_get.
  cbn [toString].
  assert (Hnone : A2ojJudger.languageTable_ !! key = None).
  { unfold A2ojJudger.Object_prototype in Hp.
    repeat (apply elem_of_cons in Hp as [-> | Hp]; [reflexivity |]).
    inversion Hp. }
  rewrite Hnone, bool_decide_eq_true_2 by exact Hp. reflexivity.
Qed.

(** ** Failure reports *)

Lemma onFailed_sends_nothing {X} (info : Info.t) (reason : jsval) (st : Judger X) :
  sent (after (BaseJudger.onFailed info reason) st) = sent st
  /\ List.filter is_report (history (after (BaseJudger.onFailed info reason) st))
     = List.filter is_report (history st).
Proof.
  unfold after. rewrite onFailed_eq. simpl. split; [reflexivity |].
  rewrite List.filter_app. simpl. apply app_nil_r.
Qed.

(** C8. Whenever the pipeline fails with a reason, [onFailed] synthesizes a
    result of type 1003 that carries the job's runid, has memoryUsed,
    timeUsed and remoteRunid "0" and the empty compileInfo, and whose result
    string is "Compile Error" for the compile-error reason, "Judge Error
    (Same Code)" for the same-code reason, "Judge Error (Invalid Language)"
    for the invalid-language reason, and "Judge Error" for the login-failed
    reason and for every reason that equals none of the first three. *)
Theorem onFailed_synthesizes {X} (info : Info.t) (reason : jsval) (st : Judger X) :
  let v := BaseJudger.onFailed_result info reason in
  history (after (BaseJudger.onFailed info reason) st)
    = history st ++ [HFailed info reason v]
  /\ Result.type v = 1003
  /\ Result.runid v = Info.runid info
  /\ Result.memoryUsed v = "0"
  /\ Result.timeUsed v = "0"
  /\ Result.remoteRunid v = "0"
  /\ Result.compileInfo v = Some EmptyString
  /\ (reason = JString BaseJudger.ERRORS.COMPILE_ERROR ->
      Result.result v = "Compile Error")
  /\ (reason = JString BaseJudger.ERRORS.SAME_CODE ->
      Result.result v = "Judge Error (Same Code)")
  /\ (reason = JString BaseJudger.ERRORS.INVALID_LANGUAGE ->
      Result.result v = "Judge Error (Invalid Language)")
  /\ (reason = JString BaseJudger.ERRORS.LOGIN_FAILED ->
      Result.result v = "Judge Error")
  /\ (loose_eq reason BaseJudger.ERRORS.COMPILE_ERROR = false ->
      loose_eq reason BaseJudger.ERRORS.SAME_CODE = false ->
      loose_eq reason BaseJudger.ERRORS.INVALID_LANGUAGE = false ->
      Result.result v = "Judge Error").
Proof.
  cbv zeta. unfold after. rewrite onFailed_eq.
  repeat split; try reflexivity; try (intros ->; reflexivity).
  intros H1 H2 H3. simpl. rewrite H1, H2, H3. reflexivity.
Qed.

Lemma onFailed_synthesizes_witness :
  Result.result (BaseJudger.onFailed_result job7 (JString "Compile error")) = "Compile Error"
  /\ Result.result (BaseJudger.onFailed_result job7 (JString "Same code"))
     = "Judge Error (Same Code)"
  /\ Result.result (BaseJudger.onFailed_result job7 (JString "Invalid language"))
     = "Judge Error (Invalid Language)"
  /\ Result.result (BaseJudger.onFailed_result job7 (JString "Login failed")) = "Judge Error"
  /\ Result.result (BaseJudger.onFailed_result job7 JUndefined) = "Judge Error".
Proof.
  pose proof (fun reason => onFailed_synthesizes job7 reason (a2oj [] [])) as H.
  cbv zeta in H.
  split; [| split; [| split; [| split]]].
  - destruct (H (JString "Compile error")) as (_ & _ & _ & _ & _ & _ & _ & Hc & _).
    apply Hc. reflexivity.
  - destruct (H (JString "Same code")) as (_ & _ & _ & _ & _ & _ & _ & _ & Hc & _).
    apply Hc. reflexivity.
  - destruct (H (JString "Invalid language"))
      as (_ & _ & _ & _ & _ & _ & _ & _ & _ & Hc & _).
    apply Hc. reflexivity.
  - destruct (H (JString "Login failed"))
      as (_ & _ & _ & _ & _ & _ & _ & _ & _ & _ & Hc & _).
    apply Hc. reflexivity.
  - destruct (H JUndefined) as (_ & _ & _ & _ & _ & _ & _ & _ & _ & _ & _ & Hc).
    apply Hc; reflexivity.
Defined.

(** C7. A job whose language code has no entry in the A2OJ table (and is
    not the name of a member of [Object.prototype]) makes [getLanguage]
    throw; [maybeJudge_] then goes to [onFailed] with the invalid-language
    reason without calling any backend method or sending any request, and
    [onFailed] builds the result "Judge Error (Invalid Language)" with "0"
    for memoryUsed, timeUsed and remoteRunid and the empty compileInfo.
    Nothing is written to the dispatcher: the result is built and dropped. *)
Theorem unmapped_language_fails {json : JSON} (info : Info.t)
    (st : Judger A2ojJudger.fields) :
  A2ojJudger.languageTable_ !! toString (Info.language info) = None ->
  toString (Info.language info) ∉ A2ojJudger.Object_prototype ->
  let st' := after (BaseJudger.maybeJudge_ A2ojJudger.methods info) st in
  let v := BaseJudger.onFailed_result info (JString BaseJudger.ERRORS.INVALID_LANGUAGE) in
  A2ojJudger.getLanguage (Info.language info) st
    = (Throw (JString "Invalid language"), st)
  /\ history st' = history st
       ++ [HFailed info (JString BaseJudger.ERRORS.INVALID_LANGUAGE) v]
  /\ ext st' = ext st
  /\ Result.result v = "Judge Error (Invalid Language)"
  /\ Result.memoryUsed v = "0" /\ Result.timeUsed v = "0"
  /\ Result.remoteRunid v = "0" /\ Result.compileInfo v = Some EmptyString
  /\ sent st' = sent st.
Proof.
  intros Hnone Hproto. cbv zeta. unfold after.
  pose proof (getLanguage_unmapped _ st Hnone Hproto) as Hthrow.
  rewrite (maybeJudge_untranslated A2ojJudger.methods info st st _ Hthrow).
  repeat split; try reflexivity. exact Hthrow.
Qed.

Lemma unmapped_language_fails_witness :
  let st' := after (BaseJudger.maybeJudge_ (json := FlatJSON.codec)
                      A2ojJudger.methods job99) (a2oj [] []) in
  history st' = [HFailed job99 (JString "Invalid language")
                   (Result.mk 1003 "8" "0" "0" "Judge Error (Invalid Language)" "0"
                      (Some EmptyString))]
  /\ sent st' = [].
Proof.
  assert (Hnone : A2ojJudger.languageTable_ !! toString (Info.language job99) = None)
    by reflexivity.
  assert (Hproto : toString (Info.language job99) ∉ A2ojJudger.Object_prototype).
  { apply (bool_decide_unpack _). vm_compute. exact I. }
  destruct (unmapped_language_fails (json := FlatJSON.codec) job99 (a2oj [] [])
              Hnone Hproto) as (_ & Hh & _ & _ & _ & _ & _ & _ & Hs).
  split; [exact Hh | exact Hs].
Defined.

(** The two halves of C7 that concern the table alone: a code of the table
    is translated to its entry, and the name of a member of
    [Object.prototype] is translated although the table has no entry. *)
Lemma mapped_language_translated (key id : string) (st : Judger A2ojJudger.fields) :
  A2ojJudger.languageTable_ !! key = Some id ->
  A2ojJudger.getLanguage (JString key) st = (Normal (JString id), st).
Proof. intros H. apply getLanguage_mapped. exact H. Qed.

Example constructor_is_translated (st : Judger A2ojJudger.fields) :
  A2ojJudger.languageTable_ !! "constructor"%string = None
  /\ A2ojJudger.getLanguage (JString "constructor") st
     = (Normal (JInherited "constructor"), st).
Proof. split; reflexivity. Qed.

(** C1. A job of the A2OJ judger that fails gets no verdict: [onFailed]
    never writes to the socket and never calls [sendResult_], whatever the
    state, the job and the reason.  On the judger of [config.js], a frame
    carrying a job with the unmapped language "99", handed over as a Buffer,
    is decoded, the failure is reported to the console, and the only bytes
    the dispatcher ever receives are the secret; the same holds for a job
    with language "1" whose login is refused.  Handed over as a string, the
    way the socket with its utf8 encoding does, the frame is not even
    decoded: [onData_] throws, no failure is reported, and again the secret
    is all the dispatcher receives. *)
Theorem failed_job_gets_no_verdict :
  (forall X (info : Info.t) (reason : jsval) (st : Judger X),
      sent (after (BaseJudger.onFailed info reason) st) = sent st)
  /\ (let st := BaseJudger.run (json := FlatJSON.codec) A2ojJudger.methods
                  [BaseJudger.Connect;
                   BaseJudger.Data (Bytes (wire (Buffer.new_string job99_text)))]
                  (a2oj [] []) in
      sent st = [Buffer.new_string config.dispatcher.secret]
      /\ List.filter is_failed (history st)
         = [HFailed job99 (JString "Invalid language")
              (Result.mk 1003 "8" "0" "0" "Judge Error (Invalid Language)" "0"
                 (Some EmptyString))]
      /\ List.filter is_report (history st) = []
      /\ receivedBytes_ st = 0 /\ uncaught st = None)
  /\ (let st := BaseJudger.run (json := FlatJSON.codec) A2ojJudger.methods
                  [BaseJudger.Connect;
                   BaseJudger.Data (Bytes (wire (Buffer.new_string job7_text)))]
                  (a2oj [mk_response false EmptyString None] []) in
      sent st = [Buffer.new_string config.dispatcher.secret]
      /\ List.filter is_failed (history st)
         = [HFailed (Info.set_language (JString "41") job7) (JString "Login failed")
              (Result.mk 1003 "7" "0" "0" "Judge Error" "0" (Some EmptyString))]
      /\ List.filter is_report (history st) = []
      /\ receivedBytes_ st = 0 /\ uncaught st = None)
  /\ (let st := BaseJudger.run (json := FlatJSON.codec) A2ojJudger.methods
                  [BaseJudger.Connect;
                   BaseJudger.Data
                     (Text (Buffer.toString (wire (Buffer.new_string job99_text))))]
                  (a2oj [] []) in
      sent st = [Buffer.new_string config.dispatcher.secret]
      /\ List.filter is_failed (history st) = []
      /\ List.filter is_report (history st) = []
      /\ exists message, uncaught st = Some (TypeError message)).
Proof.
  split; [| split; [| split]].
  - intros X info reason st. apply onFailed_sends_nothing.
  - vm_compute. repeat split; reflexivity.
  - vm_compute. repeat split; reflexivity.
  - vm_compute. repeat split; try reflexivity. eexists. reflexivity.
Qed.

(** When the session flag is set, [maybeJudge_] translates the language
    and does nothing more: it has no branch for an authenticated session. *)
Lemma maybeJudge_authenticated {json : JSON} {X}
    (m : BaseJudger.Methods X) (info : Info.t) (st st1 : Judger X) (language : jsval) :
  BaseJudger.getLanguage m (Info.language info) st = (Normal language, st1) ->
  loggedIn_ st1 = true ->
  BaseJudger.maybeJudge_ m info st = (Normal tt, st1).
Proof.
  intros Hl Hin. rewrite (maybeJudge_translated m info st st1 language Hl).
  rewrite Hin. reflexivity.
Qed.


(** With the flag unset, [login] is called first; a refused login goes to
    [onFailed] with the login-failed reason, an accepted one to [judge_]. *)
Lemma unauthenticated_session_logs_in {json : JSON} {X}
    (m : BaseJudger.Methods X) (info : Info.t) (st st1 st2 : Judger X)
    (language : jsval) (p : promise unit) :
  BaseJudger.getLanguage m (Info.language info) st = (Normal language, st1) ->
  loggedIn_ st1 = false ->
  BaseJudger.login m (set_history (history st1 ++ [HLogin]) st1) = (Normal p, st2) ->
  BaseJudger.maybeJudge_ m info st =
    match p with
    | Resolved _ => absorb (BaseJudger.judge_ m (Info.set_language language info)) st2
    | Rejected _ =>
        (Normal tt,
         failed_state (Info.set_language language info)
           (JString BaseJudger.ERRORS.LOGIN_FAILED) st2)
    | Pending => (Normal tt, st2)
    end.
Proof.
  intros Hl Hout Hlogin. rewrite (maybeJudge_translated m info st st1 language Hl).
  rewrite Hout. cbn [negb]. unfold try_catch.
  rewrite (bind_normal _ _ st1 p st2).
  - destruct p; cbn [then_].
    + unfold absorb. destruct (BaseJudger.judge_ _ _ _) as [[[] | e] st3]; reflexivity.
    + reflexivity.
    + reflexivity.
  - rewrite (bind_normal _ _ st1 tt (set_history (history st1 ++ [HLogin]) st1));
      [exact Hlogin | reflexivity].
Qed.

(** [judge_] begins with a call of [submit]. *)
Lemma judge_starts_with_submit {json : JSON} {X} (m : BaseJudger.Methods X)
    (info : Info.t) (st : Judger X) :
  methods_respect extends m ->
  exists more,
    history (after (BaseJudger.judge_ m info) st) = history st ++ HSubmit info :: more.
Proof.
  intros Hm. unfold after, BaseJudger.judge_.
  match goal with
  | |- context [mbind ?K (mbind (fun _ => ?S) (record ?h)) st] => set (k := K)
  end.
  assert (Hk : respects extends (mbind k (BaseJudger.submit m info))).
  { subst k.
    pose proof (respects_onSubmitted_ extends m Hm) as Hsub.
    pose proof (@respects_onFailed X extends _) as Hf.
    pose proof (respects_call_getWaitTime extends m Hm) as Hw.
    destruct Hm as (_ & _ & Hl & Hs & _).
    pose proof (@respects_log X extends _) as Hlog.
    pose proof (@extends_frame X) as Hframe.
    respect. }
  destruct (Hk (set_history (history st ++ [HSubmit info]) st)) as [more Hmore].
  exists more. unfold after in Hmore.
  change (mbind k (mbind (fun _ => BaseJudger.submit m info) (record (HSubmit info))) st)
    with (mbind k (BaseJudger.submit m info)
            (set_history (history st ++ [HSubmit info]) st)).
  rewrite Hmore. cbn [history set_history]. rewrite <- app_assoc. reflexivity.
Qed.



(** ** The session flag *)



(** ** Polling and compile information *)

Lemma absorb_normal {X} (c : M X unit) (st : Judger X) :
  fst (absorb c st) = Normal tt.
Proof. unfold absorb. destruct (c st) as [[[] | e] st']; reflexivity. Qed.

Lemma absorb_log {X} (message : string) (c : M X unit) (st : Judger X) :
  absorb (BaseJudger.log message;; c) st
  = absorb c (set_console
                (console st ++ ["[" +:+ judgerId_ st +:+ "]: " +:+ message]) st).
Proof. reflexivity. Qed.

(** [sendResult_] called from a promise callback: the TypeError rejects the
    promise that [then] derived and is seen by nobody. *)
Lemma absorb_sendResult_ {json : JSON} {X} (r : Result.t) (st : Judger X) :
  absorb (BaseJudger.sendResult_ r) st
  = (Normal tt,
     set_history
       (history st ++ [HSendResult r; HUnhandled (TypeError "Buffer is not a constructor")])
       (set_console
          (console st ++
             ["[" +:+ judgerId_ st +:+ "]: " +:+
              ("Done judging. Result: " +:+ Result.result r +:+ ", remote runid"
                 +:+ Result.remoteRunid r)]) st)).
Proof.
  unfold absorb. rewrite sendResult_throws. cbn [set_history set_console history].
  rewrite <- app_assoc. reflexivity.
Qed.

(** C9. [onResult_] asks for the compile information exactly when the
    result is "Compile Error"; it puts the value of a resolved promise, or
    the empty string after a rejected one, into [compileInfo] and calls
    [sendResult_]; it never calls [onFailed].  But the verdict does not
    reach the dispatcher on any of these paths: [sendResult_] throws at its
    first [new Buffer], before anything is written, and the TypeError is
    dropped with the promise the callback belongs to (for a result other
    than "Compile Error" it leaves [onResult_] itself). *)
Theorem compile_verdict_is_built_and_not_sent {json : JSON} {X}
    (m : BaseJudger.Methods X) (r : Result.t) (st : Judger X) :
  let with_compileInfo c :=
    Result.mk (Result.type r) (Result.runid r) (Result.memoryUsed r)
      (Result.timeUsed r) (Result.result r) (Result.remoteRunid r) (Some c) in
  (Result.result r <> "Compile Error"%string ->
   fst (BaseJudger.onResult_ m r st) = Throw (TypeError "Buffer is not a constructor")
   /\ sent (after (BaseJudger.onResult_ m r) st) = sent st
   /\ history (after (BaseJudger.onResult_ m r) st) = history st ++ [HSendResult r])
  /\ (Result.result r = "Compile Error"%string ->
      forall outcome st1,
        BaseJudger.getCompileInfo m (set_history (history st ++ [HGetCompileInfo]) st)
          = (Normal outcome, st1) ->
        fst (BaseJudger.onResult_ m r st) = Normal tt
        /\ sent (after (BaseJudger.onResult_ m r) st) = sent st1
        /\ match outcome with
           | Resolved info =>
               history (after (BaseJudger.onResult_ m r) st)
               = history st1
                   ++ [HSendResult (with_compileInfo info);
                       HUnhandled (TypeError "Buffer is not a constructor")]
           | Rejected _ =>
               history (after (BaseJudger.onResult_ m r) st)
               = history st1
                   ++ [HSendResult (with_compileInfo EmptyString);
                       HUnhandled (TypeError "Buffer is not a constructor")]
           | Pending => after (BaseJudger.onResult_ m r) st = st1
           end).
Proof.
  cbv zeta. split.
  - intros Hne. unfold after, BaseJudger.onResult_.
    destruct (String.eqb_spec (Result.result r) "Compile Error") as [Heq | _];
      [contradiction |].
    rewrite sendResult_throws. repeat split.
  - intros Heq outcome st1 Hcall. unfold after, BaseJudger.onResult_.
    destruct (String.eqb_spec (Result.result r) "Compile Error") as [_ | Hne];
      [| contradiction].
    rewrite (bind_normal _ _ st outcome st1)
      by (rewrite (bind_normal _ _ st tt
                     (set_history (history st ++ [HGetCompileInfo]) st));
          [exact Hcall | reflexivity]).
    destruct outcome as [info | e |]; cbn [then_].
    + rewrite absorb_sendResult_. repeat split.
    + rewrite absorb_log, absorb_sendResult_. repeat split.
    + repeat split.
Qed.

Lemma compile_verdict_is_built_and_not_sent_witness :
  let r := Result.mk 1003 "7" "256" "15" "Compile Error" "999" None in
  let failing := Stub.new (fun _ => Resolved tt) (fun _ => Resolved tt)
                   (Resolved accepted) (Rejected (JString "no diagnostics")) 0 in
  let working := Stub.new (fun _ => Resolved tt) (fun _ => Resolved tt)
                   (Resolved accepted) (Resolved "main.c:1: error"%string) 0 in
  (sent (after (BaseJudger.onResult_ (json := FlatJSON.codec) Stub.methods r) failing) = []
   /\ history (after (BaseJudger.onResult_ (json := FlatJSON.codec) Stub.methods r) failing)
      = [HGetCompileInfo;
         HSendResult (Result.mk 1003 "7" "256" "15" "Compile Error" "999"
                        (Some EmptyString));
         HUnhandled (TypeError "Buffer is not a constructor")])
  /\ (sent (after (BaseJudger.onResult_ (json := FlatJSON.codec) Stub.methods r) working) = []
      /\ history (after (BaseJudger.onResult_ (json := FlatJSON.codec) Stub.methods r) working)
         = [HGetCompileInfo;
            HSendResult (Result.mk 1003 "7" "256" "15" "Compile Error" "999"
                           (Some "main.c:1: error"%string));
            HUnhandled (TypeError "Buffer is not a constructor")])
  /\ sent (after (BaseJudger.onResult_ (json := FlatJSON.codec) Stub.methods
                    (Result.mk 1003 "7" "256" "15" "Accepted" "999" None)) failing)
     = [].
Proof.
  cbv zeta. split; [| split].
  - destruct (compile_verdict_is_built_and_not_sent (json := FlatJSON.codec) Stub.methods
                (Result.mk 1003 "7" "256" "15" "Compile Error" "999" None)
                (Stub.new (fun _ => Resolved tt) (fun _ => Resolved tt)
                   (Resolved accepted) (Rejected (JString "no diagnostics")) 0))
      as [_ H].
    destruct (H eq_refl (Rejected (JString "no diagnostics")) _ eq_refl)
      as (_ & Hs & Hh).
    split; [exact Hs | exact Hh].
  - destruct (compile_verdict_is_built_and_not_sent (json := FlatJSON.codec) Stub.methods
                (Result.mk 1003 "7" "256" "15" "Compile Error" "999" None)
                (Stub.new (fun _ => Resolved tt) (fun _ => Resolved tt)
                   (Resolved accepted) (Resolved "main.c:1: error"%string) 0))
      as [_ H].
    destruct (H eq_refl (Resolved "main.c:1: error"%string) _ eq_refl)
      as (_ & Hs & Hh).
    split; [exact Hs | exact Hh].
  - destruct (compile_verdict_is_built_and_not_sent (json := FlatJSON.codec) Stub.methods
                (Result.mk 1003 "7" "256" "15" "Accepted" "999" None)
                (Stub.new (fun _ => Resolved tt) (fun _ => Resolved tt)
                   (Resolved accepted) (Rejected (JString "no diagnostics")) 0))
      as [H _].
    destruct (H ltac:(discriminate)) as (_ & Hs & _).
    exact Hs.
Defined.

(** A backend whose [getCompileInfo] throws instead of returning a promise,
    as the ones of [BaseJudger] and [A2ojJudger] do, makes [onResult_] throw
    on a "Compile Error" result before [sendResult_] is called; no failure
    is reported. *)
Lemma onResult_getCompileInfo_throws {json : JSON} (r : Result.t)
    (st : Judger A2ojJudger.fields) :
  Result.result r = "Compile Error"%string ->
  BaseJudger.onResult_ A2ojJudger.methods r st
  = (Throw (Error "GetCompileInfo must be implemented!"),
     set_history (history st ++ [HGetCompileInfo]) st).
Proof.
  intros Heq. unfold BaseJudger.onResult_. rewrite Heq. reflexivity.
Qed.

(** C4. When the promise of [getStatus] rejects, [onSubmitted_] ends in the
    state [getStatus] left: [onFailed] is not called, no result is built and
    nothing is sent.  The rejection handler returns a bound function
    instead of calling it. *)
Theorem poll_failure_is_dropped {json : JSON} {X}
    (m : BaseJudger.Methods X) (info : Info.t) (st st1 : Judger X) (e : jsval) :
  BaseJudger.getStatus m (set_history (history st ++ [HGetStatus]) st)
    = (Normal (Rejected e), st1) ->
  BaseJudger.onSubmitted_ m info st = (Normal tt, st1).
Proof.
  intros H. unfold BaseJudger.onSubmitted_.
  rewrite (bind_normal _ _ st (Rejected e) st1); [reflexivity |].
  rewrite (bind_normal _ _ st tt (set_history (history st ++ [HGetStatus]) st));
    [exact H | reflexivity].
Qed.

Lemma poll_failure_is_dropped_witness :
  let st := Stub.new (fun _ => Resolved tt) (fun _ => Resolved tt)
              (Rejected (JString "Timeout")) Pending 0 in
  let st' := after (BaseJudger.onSubmitted_ (json := FlatJSON.codec)
                      Stub.methods job7) st in
  history st' = [HGetStatus] /\ sent st' = [] /\ console st' = [].
Proof.
  cbv zeta. unfold after.
  rewrite (poll_failure_is_dropped (json := FlatJSON.codec) Stub.methods job7
             (Stub.new (fun _ => Resolved tt) (fun _ => Resolved tt)
                (Rejected (JString "Timeout")) Pending 0)
             (set_history [HGetStatus]
                (Stub.new (fun _ => Resolved tt) (fun _ => Resolved tt)
                   (Rejected (JString "Timeout")) Pending 0))
             (JString "Timeout") eq_refl).
  repeat split; reflexivity.
Defined.

(** The status request of [A2ojJudger]: with a status url, the loop issues
    its requests one after the other and the promise is left unsettled. *)
Lemma poll_requests (u : string) (startTime limit : Z) (readings : list Z)
    (st : Judger A2ojJudger.fields) :
  exists n,
    (n <= List.length readings)%nat
    /\ fst (A2ojJudger.poll u startTime limit readings st) = Normal tt
    /\ history (after (A2ojJudger.poll u startTime limit readings) st)
       = history st ++ replicate n (HRequest (mk_request "GET" u []))
    /\ sent (after (A2ojJudger.poll u startTime limit readings) st) = sent st
    /\ console (after (A2ojJudger.poll u startTime limit readings) st) = console st
    /\ uncaught (after (A2ojJudger.poll u startTime limit readings) st) = uncaught st.
Proof.
  revert st. induction readings as [| now later IH]; intros st.
  - exists 0%nat. simpl. rewrite app_nil_r. repeat split; reflexivity || lia.
  - cbn [A2ojJudger.poll]. destruct (now - startTime <? limit).
    + destruct (IH (set_history
                      (history st ++ [HRequest (mk_request "GET" u [])]) st))
        as (n & Hn & Hfst & Hh & Hs & Hc & Hu).
      exists (S n). unfold after in *.
      rewrite (bind_normal _ _ st tt
                 (set_history (history st ++ [HRequest (mk_request "GET" u [])]) st))
        by reflexivity.
      rewrite Hh, Hs, Hc, Hu. simpl. rewrite <- app_assoc.
      repeat split; try reflexivity; [lia | exact Hfst].
    + exists 0%nat. simpl. rewrite app_nil_r. repeat split; reflexivity || lia.
Qed.

(** C6. With a status url, [getStatus] of [A2ojJudger] returns a promise
    that is never settled: it neither resolves with a verdict nor rejects
    with a timeout.  Before returning it issues one GET request for every
    reading of the clock that is within the timeout, back to back, with no
    timer between them and no use of the responses. *)
Theorem getStatus_never_settles (st : Judger A2ojJudger.fields) (u : string) :
  A2ojJudger.statusUrl_ (ext st) = Some u ->
  u <> EmptyString ->
  exists n,
    (n <= List.length (A2ojJudger.clock (ext st)))%nat
    /\ fst (A2ojJudger.getStatus st) = Normal Pending
    /\ history (after A2ojJudger.getStatus st)
       = history st ++ replicate n (HRequest (mk_request "GET" u []))
    /\ sent (after A2ojJudger.getStatus st) = sent st
    /\ console (after A2ojJudger.getStatus st) = console st.
Proof.
  intros Hu Hne. unfold A2ojJudger.getStatus, after.
  rewrite (bind_normal _ _ st st st) by reflexivity.
  rewrite Hu. cbn [from_option truthy default].
  destruct (String.eqb_spec u EmptyString) as [-> | _]; [contradiction |].
  cbn [negb]. destruct (A2ojJudger.clock (ext st)) as [| startTime readings].
  - exists 0%nat. simpl. rewrite app_nil_r. repeat split; reflexivity || lia.
  - destruct (poll_requests u startTime (A2ojJudger.timeout_ (ext st) * 1000)
                readings st) as (n & Hn & Hfst & Hh & Hs & Hc & _).
    exists n. unfold after in *.
    destruct (A2ojJudger.poll u startTime _ readings st) as [[[] | e] st'] eqn:Hp;
      simpl in Hfst; [| discriminate].
    rewrite (bind_normal _ _ st tt st' Hp). simpl in *.
    repeat split; try assumption. lia.
Qed.

Lemma getStatus_never_settles_witness :
  let st := set_ext (A2ojJudger.mk "bnutest" "bnutest" 120
                       (Some "http://www.a2oj.com/status"%string) []
                       [0; 1; 2; 60000; 119999; 120000; 120001])
              (a2oj [] []) in
  A2ojJudger.statusUrl_ (ext st) = Some "http://www.a2oj.com/status"%string
  /\ exists n, (n <= 7)%nat /\ fst (A2ojJudger.getStatus st) = Normal Pending
       /\ history (after A2ojJudger.getStatus st)
          = replicate n (HRequest (mk_request "GET" "http://www.a2oj.com/status" [])).
Proof.
  cbv zeta. split; [reflexivity |].
  destruct (getStatus_never_settles
              (set_ext (A2ojJudger.mk "bnutest" "bnutest" 120
                          (Some "http://www.a2oj.com/status"%string) []
                          [0; 1; 2; 60000; 119999; 120000; 120001])
                 (a2oj [] []))
              "http://www.a2oj.com/status" eq_refl ltac:(discriminate))
    as (n & Hn & Hfst & Hh & _).
  exists n. split; [exact Hn | split; [exact Hfst | exact Hh]].
Defined.

Example getStatus_timeout_run :
  let st := set_ext (A2ojJudger.mk "bnutest" "bnutest" 120
                       (Some "http://www.a2oj.com/status"%string) []
                       [0; 1; 2; 60000; 119999; 120000; 120001])
              (a2oj [] []) in
  fst (A2ojJudger.getStatus st) = Normal Pending
  /\ List.length (history (after A2ojJudger.getStatus st)) = 4%nat
  /\ A2ojJudger.clock (ext (after A2ojJudger.getStatus st)) = [120001].
Proof. vm_compute. repeat split; reflexivity. Qed.

(** ** The retry cascade *)

(** What a submission that succeeded adds to the history of the scripted
    backend, seen through a filter [P] that ignores result reports, dropped
    exceptions and requests for compile information. *)
Section AfterSubmit.
Context {json : JSON} (P : hevent -> bool).
Hypothesis P_report : forall r, P (HSendResult r) = false.
Hypothesis P_unhandled : forall e, P (HUnhandled e) = false.
Hypothesis P_compileInfo : P HGetCompileInfo = false.

Lemma sendResult_filtered {X} (r : Result.t) (st : Judger X) :
  List.filter P (history (after (BaseJudger.sendResult_ r) st)) = List.filter P (history st)
  /\ uncaught (after (BaseJudger.sendResult_ r) st) = uncaught st
  /\ ext (after (BaseJudger.sendResult_ r) st) = ext st.
Proof.
  unfold after. rewrite sendResult_throws. simpl.
  rewrite List.filter_app. simpl. rewrite P_report, app_nil_r. repeat split.
Qed.

Lemma absorb_filtered {X} (c : M X unit) (st : Judger X) :
  List.filter P (history (after c st)) = List.filter P (history st) ->
  List.filter P (history (after (absorb c) st)) = List.filter P (history st).
Proof.
  unfold after, absorb. destruct (c st) as [[[] | e] st']; simpl; intros H.
  - exact H.
  - rewrite List.filter_app. simpl. rewrite P_unhandled, app_nil_r. exact H.
Qed.

Lemma absorb_uncaught {X} (c : M X unit) (st : Judger X) :
  uncaught (after (absorb c) st) = uncaught (after c st)
  /\ ext (after (absorb c) st) = ext (after c st).
Proof. unfold after, absorb. destruct (c st) as [[[] | e] st']; split; reflexivity. Qed.

Lemma Stub_onResult_filtered (r : Result.t) (st : Judger Stub.fields) :
  List.filter P (history (after (BaseJudger.onResult_ Stub.methods r) st))
    = List.filter P (history st)
  /\ uncaught (after (BaseJudger.onResult_ Stub.methods r) st) = uncaught st
  /\ ext (after (BaseJudger.onResult_ Stub.methods r) st) = ext st.
Proof.
  unfold BaseJudger.onResult_. destruct (String.eqb _ _).
  - set (st0 := set_history (history st ++ [HGetCompileInfo]) st).
    assert (H0 : List.filter P (history st0) = List.filter P (history st)).
    { subst st0. simpl. rewrite List.filter_app. simpl.
      rewrite P_compileInfo. apply app_nil_r. }
    unfold after.
    rewrite (bind_normal _ _ st (Stub.compileInfo_script (ext st)) st0) by reflexivity.
    destruct (Stub.compileInfo_script (ext st)) as [c | e |]; cbn [then_].
    + destruct (absorb_uncaught (BaseJudger.sendResult_ (Result.set_compileInfo c r)) st0)
        as [Hu He].
      destruct (sendResult_filtered (Result.set_compileInfo c r) st0) as (Hf & Hu' & He').
      unfold after in *. rewrite Hu, He, Hu', He'.
      rewrite <- H0. split; [| split; reflexivity].
      apply (absorb_filtered _ st0). exact Hf.
    + rewrite absorb_log.
      match goal with |- context [absorb (BaseJudger.sendResult_ ?r') ?s] =>
        destruct (absorb_uncaught (BaseJudger.sendResult_ r') s) as [Hu He];
        pose proof (absorb_filtered (BaseJudger.sendResult_ r') s) as Hf;
        destruct (sendResult_filtered r' s) as (Hf' & Hu' & He')
      end.
      unfold after in *. rewrite Hu, He, Hu', He'.
      rewrite <- H0. split; [| split; reflexivity].
      rewrite (Hf Hf'). reflexivity.
    + simpl. split; [exact H0 | split; reflexivity].
  - apply sendResult_filtered.
Qed.

Lemma Stub_onSubmitted_filtered (info : Info.t) (st : Judger Stub.fields) :
  exists st',
    absorb (BaseJudger.onSubmitted_ Stub.methods info) st = (Normal tt, st')
    /\ List.filter P (history st') = List.filter P (history st ++ [HGetStatus])
    /\ uncaught st' = uncaught st.
Proof.
  set (st0 := set_history (history st ++ [HGetStatus]) st).
  assert (Hsub : BaseJudger.onSubmitted_ Stub.methods info st
                 = then_ (Stub.status_script (ext st))
                     (fun status =>
                        BaseJudger.onResult_ Stub.methods
                          {| Result.type := BaseJudger.RESULT_REPORT_;
                             Result.runid := Info.runid info;
                             Result.memoryUsed := Status.memoryUsed status;
                             Result.timeUsed := Status.timeUsed status;
                             Result.result := Status.result status;
                             Result.remoteRunid := Status.remoteRunid status;
                             Result.compileInfo := None |})
                     (fun _ => mret tt) st0) by reflexivity.
  unfold absorb at 1. rewrite Hsub.
  destruct (Stub.status_script (ext st)) as [status | e |]; cbn [then_].
  - match goal with |- context [absorb ?c st0] =>
      destruct (absorb_uncaught c st0) as [Hu _];
      pose proof (absorb_filtered c st0) as Hf;
      pose proof (absorb_normal c st0) as Hn
    end.
    match type of Hf with context [BaseJudger.onResult_ _ ?r] =>
      destruct (Stub_onResult_filtered r st0) as (Hf' & Hu' & _)
    end.
    specialize (Hf Hf'). unfold after in *.
    destruct (absorb _ st0) as [[[] | e] st1]; simpl in *; [| discriminate].
    eexists. split; [reflexivity |]. split; [exact Hf | congruence].
  - eexists. split; [reflexivity |]. split; reflexivity.
  - eexists. split; [reflexivity |]. split; reflexivity.
Qed.

End AfterSubmit.

Lemma absorb_ex {X} (c : M X unit) (st : Judger X) (Q : Judger X -> Prop) :
  (exists st', c st = (Normal tt, st') /\ Q st') ->
  exists st', absorb c st = (Normal tt, st') /\ Q st'.
Proof.
  intros (st' & H & HQ). exists st'. unfold absorb. rewrite H. split; [reflexivity | exact HQ].
Qed.

Lemma log_bind {X A} (message : string) (f : unit -> M X A) (st : Judger X) :
  mbind f (BaseJudger.log message) st
  = f tt (set_console
            (console st ++ ["[" +:+ judgerId_ st +:+ "]: " +:+ message]) st).
Proof. reflexivity. Qed.

Lemma setTimeout_ex {X} (c : M X unit) (ms : Z) (st : Judger X) (Q : Judger X -> Prop) :
  (exists st', c (set_history (history st ++ [HTimer ms]) st) = (Normal tt, st') /\ Q st') ->
  exists st', setTimeout c ms st = (Normal tt, st') /\ Q st'.
Proof.
  intros (st' & H & HQ). exists st'. unfold setTimeout. rewrite H.
  split; [reflexivity | exact HQ].
Qed.

(** The first two tiers of [judge_] on the scripted backend: the submission
    is rejected once, the login that follows is accepted, the second
    submission is accepted. *)
Lemma cascade_second_attempt {json : JSON} (info : Info.t) (e1 : jsval)
    (status : promise Status.t) (compileInfo : promise string) (w : Z) :
  exists st',
    BaseJudger.judge_ Stub.methods info
      (Stub.new (fun _ => Resolved tt) (script [Rejected e1] (Resolved tt))
         status compileInfo w) = (Normal tt, st')
    /\ List.filter is_pipeline_step (history st')
       = [HSubmit info; HLogin; HSubmit info; HGetStatus].
Proof.
  unfold BaseJudger.judge_.
  erewrite bind_normal by (lazy; reflexivity). cbn [script nth then_].
  apply absorb_ex. rewrite !log_bind.
  erewrite bind_normal by (lazy; reflexivity). cbn [then_].
  apply absorb_ex.
  erewrite bind_normal by (lazy; reflexivity). cbn [script nth then_].
  match goal with |- context [absorb _ ?s] =>
    destruct (Stub_onSubmitted_filtered is_pipeline_step
                (fun _ => eq_refl) (fun _ => eq_refl) eq_refl info s)
      as (st' & Heq & Hf & _)
  end.
  exists st'. split; [exact Heq | rewrite Hf; reflexivity].
Qed.

(** The third tier: two rejected submissions, then, after the wait, an
    accepted one. *)
Lemma cascade_third_attempt {json : JSON} (info : Info.t) (e1 e2 : jsval)
    (status : promise Status.t) (compileInfo : promise string) (w : Z) :
  exists st',
    BaseJudger.judge_ Stub.methods info
      (Stub.new (fun _ => Resolved tt)
         (script [Rejected e1; Rejected e2] (Resolved tt))
         status compileInfo w) = (Normal tt, st')
    /\ List.filter is_pipeline_step (history st')
       = [HSubmit info; HLogin; HSubmit info; HGetWaitTime; HTimer w;
          HSubmit info; HGetStatus].
Proof.
  unfold BaseJudger.judge_.
  erewrite bind_normal by (lazy; reflexivity). cbn [script nth then_].
  apply absorb_ex. rewrite !log_bind.
  erewrite bind_normal by (lazy; reflexivity). cbn [then_].
  apply absorb_ex.
  erewrite bind_normal by (lazy; reflexivity). cbn [script nth then_].
  apply absorb_ex. rewrite !log_bind.
  erewrite bind_normal by (lazy; reflexivity).
  apply setTimeout_ex.
  erewrite bind_normal by (lazy; reflexivity). cbn [script nth then_].
  match goal with |- context [absorb _ ?s] =>
    destruct (Stub_onSubmitted_filtered is_pipeline_step
                (fun _ => eq_refl) (fun _ => eq_refl) eq_refl info s)
      as (st' & Heq & Hf & _)
  end.
  exists st'. split; [exact Heq | rewrite Hf; reflexivity].
Qed.

(** Whatever the scripts, [judge_] calls [submit] at most three times. *)
Lemma at_most_three_submits {json : JSON} (info : Info.t)
    (login_script submit_script : nat -> promise unit)
    (status : promise Status.t) (compileInfo : promise string) (w : Z) :
  (List.length
     (List.filter is_submit
        (history (after (BaseJudger.judge_ Stub.methods info)
                    (Stub.new login_script submit_script status compileInfo w))))
   <= 3)%nat.
Proof.
  assert (Hsub : forall st : Judger Stub.fields,
            exists st', absorb (BaseJudger.onSubmitted_ Stub.methods info) st
                        = (Normal tt, st')
              /\ List.filter is_submit (history st') = List.filter is_submit (history st)).
  { intros st.
    destruct (Stub_onSubmitted_filtered is_submit
                (fun _ => eq_refl) (fun _ => eq_refl) eq_refl info st)
      as (st' & Heq & Hf & _).
    exists st'. split; [exact Heq |]. rewrite Hf, List.filter_app. apply app_nil_r. }
  unfold after, BaseJudger.judge_.
  erewrite bind_normal by (lazy; reflexivity).
  destruct (submit_script 0%nat) as [[] | e1 |]; cbn [then_].
  { destruct (Hsub (set_ext (Stub.mk login_script submit_script status compileInfo w 0 1)
                      (set_history [HSubmit info]
                         (Stub.new login_script submit_script status compileInfo w))))
      as (st' & Heq & Hf).
    match goal with |- context [absorb ?c ?s] => change (absorb c s) with
      (absorb (BaseJudger.onSubmitted_ Stub.methods info)
         (set_ext (Stub.mk login_script submit_script status compileInfo w 0 1)
            (set_history [HSubmit info]
               (Stub.new login_script submit_script status compileInfo w)))) end.
    rewrite Heq. cbn [snd]. rewrite Hf. simpl. lia. }
  2: { simpl. lia. }
  unfold absorb at 1. rewrite !log_bind.
  erewrite bind_normal by (lazy; reflexivity).
  destruct (login_script 0%nat) as [[] | e |]; cbn [then_].
  2: { simpl. lia. }
  2: { simpl. lia. }
  unfold absorb at 1.
  erewrite bind_normal by (lazy; reflexivity).
  destruct (submit_script 1%nat) as [[] | e2 |]; cbn [then_].
  { match goal with |- context [absorb (BaseJudger.onSubmitted_ _ _) ?s] =>
      destruct (Hsub s) as (st' & Heq & Hf) end.
    rewrite Heq. cbn [snd]. rewrite Hf. simpl. lia. }
  2: { simpl. lia. }
  unfold absorb at 1. rewrite !log_bind.
  erewrite bind_normal by (lazy; reflexivity).
  unfold setTimeout.
  erewrite bind_normal by (lazy; reflexivity).
  destruct (submit_script 2%nat) as [[] | e3 |]; cbn [then_].
  { match goal with |- context [absorb (BaseJudger.onSubmitted_ _ _) ?s] =>
      destruct (Hsub s) as (st' & Heq & Hf) end.
    rewrite Heq. cbn [snd]. rewrite Hf. simpl. lia. }
  all: simpl; lia.
Qed.

(** The cascade on [A2ojJudger], which defines no [getWaitTime]: after the
    second rejected submission the call [this.getWaitTime()] throws, no timer
    is set and there is no third submission. *)
Example cascade_without_getWaitTime :
  let refused := mk_response false EmptyString None in
  let welcome := mk_response true "Welcome" None in
  let st := after (BaseJudger.judge_ (json := FlatJSON.codec) A2ojJudger.methods job7)
              (a2oj [refused; welcome; refused] []) in
  List.filter is_pipeline_step (history st) = [HSubmit job7; HLogin; HSubmit job7]
  /\ last (history st)
     = Some (HUnhandled (TypeError "this.getWaitTime is not a function"))
  /\ sent st = [].
Proof. vm_compute. repeat split; reflexivity. Qed.

(** C2. The retry cascade of [judge_] on a scripted backend whose logins
    succeed.  A submission rejected once and then accepted is followed by
    one login and the second submission, after which the status is polled;
    no wait is involved.  A submission rejected twice and then accepted is
    followed by the wait and the third submission, after which the status is
    polled.  A submission that is always rejected is attempted three times
    and then abandoned: [onFailed] is not called and nothing is sent,
    because the last rejection handler returns a bound function instead of
    calling it.  Whatever the scripts, there are at most three attempts. *)
Theorem retry_cascade {json : JSON} (info : Info.t) (e e1 e2 : jsval)
    (status : promise Status.t) (compileInfo : promise string) (w : Z) :
  let steps submit_script :=
    List.filter is_pipeline_step
      (history (after (BaseJudger.judge_ Stub.methods info)
                  (Stub.new (fun _ => Resolved tt) submit_script
                     status compileInfo w))) in
  steps (script [Rejected e1] (Resolved tt))
    = [HSubmit info; HLogin; HSubmit info; HGetStatus]
  /\ steps (script [Rejected e1; Rejected e2] (Resolved tt))
    = [HSubmit info; HLogin; HSubmit info; HGetWaitTime; HTimer w;
       HSubmit info; HGetStatus]
  /\ steps (fun _ => Rejected e)
    = [HSubmit info; HLogin; HSubmit info; HGetWaitTime; HTimer w; HSubmit info]
  /\ sent (after (BaseJudger.judge_ Stub.methods info)
             (Stub.new (fun _ => Resolved tt) (fun _ => Rejected e)
                status compileInfo w)) = []
  /\ (forall login_script submit_script,
        (List.length
           (List.filter is_submit
              (history (after (BaseJudger.judge_ Stub.methods info)
                          (Stub.new login_script submit_script
                             status compileInfo w)))) <= 3)%nat).
Proof.
  cbv zeta. split; [| split; [| split; [| split]]].
  - destruct (cascade_second_attempt info e1 status compileInfo w) as (st' & Heq & H).
    unfold after. rewrite Heq. exact H.
  - destruct (cascade_third_attempt info e1 e2 status compileInfo w) as (st' & Heq & H).
    unfold after. rewrite Heq. exact H.
  - reflexivity.
  - reflexivity.
  - intros login_script submit_script.
    apply at_most_three_submits.
Qed.

(** ** Framing *)

Lemma slice_wire (payload : list byte) : Buffer.slice (wire payload) 4 = payload.
Proof. reflexivity. Qed.

Lemma length_wire (payload : list byte) :
  Buffer.length (wire payload) - 4 = Buffer.length payload.
Proof.
  unfold Buffer.length, wire. rewrite length_app.
  change (List.length (Buffer.bytesBE 4 _)) with 4%nat. lia.
Qed.

(** A frame that is handed over as one Buffer is decoded: its payload is
    parsed, [receivedBytes_] is cleared and the job is handed to
    [maybeJudge_]. *)
Lemma whole_frame_is_decoded {json : JSON} {X} (m : BaseJudger.Methods X)
    (st : Judger X) (payload : list byte) (info : Info.t) :
  receivedBytes_ st = 0 ->
  Buffer.length payload < 2 ^ 31 ->
  JSON_parse (Buffer.toString payload) = Some info ->
  BaseJudger.onData_ m (Bytes (wire payload)) st
  = BaseJudger.maybeJudge_ m info
      (set_receivedBytes_ 0
         (set_receivedData_ (Some payload)
            (set_readBytes_ (Buffer.length payload)
               (set_receivedBytes_ (Buffer.length payload) st)))).
Proof.
  intros Hrb Hlen Hparse. unfold BaseJudger.onData_.
  rewrite (bind_normal _ _ st st st) by reflexivity.
  rewrite Hrb. cbn [Z.eqb].
  assert (Hread : Buffer.readIntBE (wire payload) 0 4 = Normal (Buffer.length payload)).
  { apply readIntBE_frame. unfold Buffer.length in *. lia. }
  rewrite Hread, length_wire, slice_wire.
  rewrite (bind_normal _ _ st tt
             (set_receivedData_ (Some payload)
                (set_readBytes_ (Buffer.length payload)
                   (set_receivedBytes_ (Buffer.length payload) st)))) by reflexivity.
  erewrite bind_normal by reflexivity.
  cbn [readBytes_ receivedBytes_ set_receivedData_ set_readBytes_ set_receivedBytes_].
  rewrite Z.eqb_refl.
  cbn [receivedData_ set_receivedData_].
  erewrite bind_normal by reflexivity. rewrite Hparse.
  erewrite bind_normal by reflexivity.
  erewrite bind_normal by reflexivity.
  reflexivity.
Qed.

Lemma onData_short {json : JSON} {X} (m : BaseJudger.Methods X)
    (st : Judger X) (data : list byte) :
  receivedBytes_ st = 0 ->
  (List.length data < 4)%nat ->
  BaseJudger.onData_ m (Bytes data) st = (Throw (RangeError "Index out of range"), st).
Proof.
  intros Hrb Hlen. unfold BaseJudger.onData_.
  rewrite (bind_normal _ _ st st st) by reflexivity.
  rewrite Hrb. cbn [Z.eqb].
  assert (Hread : Buffer.readIntBE data 0 4 = Throw (RangeError "Index out of range")).
  { unfold Buffer.readIntBE. destruct (Nat.leb_spec (0 + 4) (List.length data)); [lia |].
    reflexivity. }
  rewrite Hread. reflexivity.
Qed.

Lemma onData_first_chunk {json : JSON} {X} (m : BaseJudger.Methods X)
    (st : Judger X) (n : Z) (rest : list byte) :
  receivedBytes_ st = 0 ->
  0 <= n < 2 ^ 31 ->
  Buffer.length rest <> n ->
  BaseJudger.onData_ m (Bytes (Buffer.bytesBE 4 n ++ rest)) st
  = (Normal tt,
     set_receivedData_ (Some rest)
       (set_readBytes_ (Buffer.length rest) (set_receivedBytes_ n st))).
Proof.
  intros Hrb Hn Hne. unfold BaseJudger.onData_.
  rewrite (bind_normal _ _ st st st) by reflexivity.
  rewrite Hrb. cbn [Z.eqb].
  rewrite (readIntBE_frame n rest Hn).
  assert (Hlen : Buffer.length (Buffer.bytesBE 4 n ++ rest) - 4 = Buffer.length rest).
  { unfold Buffer.length. rewrite length_app.
    change (List.length (Buffer.bytesBE 4 n)) with 4%nat. lia. }
  rewrite Hlen. change (Buffer.slice (Buffer.bytesBE 4 n ++ rest) 4) with rest.
  rewrite (bind_normal _ _ st tt
             (set_receivedData_ (Some rest)
                (set_readBytes_ (Buffer.length rest) (set_receivedBytes_ n st))))
    by reflexivity.
  erewrite bind_normal by reflexivity.
  cbn [readBytes_ receivedBytes_ set_receivedData_ set_readBytes_ set_receivedBytes_].
  destruct (Z.eqb_spec (Buffer.length rest) n); [contradiction | reflexivity].
Qed.

(** While a frame is awaited, every further chunk ends in the TypeError of
    [Buffer.concat]. *)
Lemma onData_next_chunk {json : JSON} {X} (m : BaseJudger.Methods X)
    (st : Judger X) (data : chunk) :
  receivedBytes_ st <> 0 ->
  BaseJudger.onData_ m data st
  = (Throw (TypeError "Buffer.concat is not a function"),
     set_readBytes_ (chunk_length data) st).
Proof.
  intros Hrb. unfold BaseJudger.onData_.
  rewrite (bind_normal _ _ st st st) by reflexivity.
  destruct (Z.eqb_spec (receivedBytes_ st) 0); [contradiction |].
  reflexivity.
Qed.

(** A string has no method [readIntBE]: when no frame is awaited, a chunk
    that is a string throws before anything is assigned. *)
Lemma onData_text {json : JSON} {X} (m : BaseJudger.Methods X)
    (st : Judger X) (s : string) :
  receivedBytes_ st = 0 ->
  BaseJudger.onData_ m (Text s) st
  = (Throw (TypeError "data.readIntBE is not a function"), st).
Proof.
  intros Hrb. unfold BaseJudger.onData_.
  rewrite (bind_normal _ _ st st st) by reflexivity.
  rewrite Hrb. reflexivity.
Qed.

Lemma dispatch_data_throw {json : JSON} {X} (m : BaseJudger.Methods X)
    (st st' : Judger X) (data : chunk) (e : jsval) :
  uncaught st = None ->
  BaseJudger.onData_ m data st = (Throw e, st') ->
  BaseJudger.dispatch m st (BaseJudger.Data data) = set_uncaught (Some e) st'.
Proof.
  intros Hunc H. unfold BaseJudger.dispatch. rewrite Hunc.
  cbn [BaseJudger.handler]. rewrite H. reflexivity.
Qed.

Lemma dispatch_data_normal {json : JSON} {X} (m : BaseJudger.Methods X)
    (st st' : Judger X) (data : chunk) :
  uncaught st = None ->
  BaseJudger.onData_ m data st = (Normal tt, st') ->
  BaseJudger.dispatch m st (BaseJudger.Data data) = st'.
Proof.
  intros Hunc H. unfold BaseJudger.dispatch. rewrite Hunc.
  cbn [BaseJudger.handler]. rewrite H. reflexivity.
Qed.

Lemma run_after_uncaught {json : JSON} {X} (m : BaseJudger.Methods X)
    (evs : list BaseJudger.event) (st : Judger X) (e : jsval) :
  uncaught st = Some e -> BaseJudger.run m evs st = st.
Proof.
  intros H. unfold BaseJudger.run. induction evs as [| ev evs IH]; simpl.
  - reflexivity.
  - unfold BaseJudger.dispatch at 2. rewrite H. exact IH.
Qed.

(** C5. A frame that arrives in two chunks is never decoded.  Handed over
    as Buffers: cut inside the length prefix, the first chunk makes
    [readIntBE] throw; cut after it, the first chunk is stored, and the
    second one makes [Buffer.concat] throw ([onData_] also hands it the
    number [receivedBytes_] in place of the buffer [receivedData_]), while
    [receivedBytes_] keeps the announced length.  Handed over as strings,
    the way the socket with its utf8 encoding does, the first chunk already
    throws, wherever the frame is cut.  In every case the exception reaches
    the event loop, the job is not handed to the pipeline and nothing is
    sent. *)
Theorem split_frame_is_not_reassembled {json : JSON} {X}
    (m : BaseJudger.Methods X) (st : Judger X) (payload : list byte) (cut : nat) :
  uncaught st = None ->
  receivedBytes_ st = 0 ->
  0 < Buffer.length payload < 2 ^ 31 ->
  (0 < cut < List.length (wire payload))%nat ->
  let st' := BaseJudger.run m
               [BaseJudger.Data (Bytes (take cut (wire payload)));
                BaseJudger.Data (Bytes (drop cut (wire payload)))] st in
  let st'' := BaseJudger.run m
                [BaseJudger.Data (Text (Buffer.toString (take cut (wire payload))));
                 BaseJudger.Data (Text (Buffer.toString (drop cut (wire payload))))] st in
  ((exists e, uncaught st' = Some e)
   /\ history st' = history st
   /\ sent st' = sent st
   /\ (4 <= cut -> receivedBytes_ st' = Buffer.length payload)%nat)
  /\ ((exists message, uncaught st'' = Some (TypeError message))
      /\ history st'' = history st
      /\ sent st'' = sent st
      /\ receivedBytes_ st'' = 0).
Proof.
  intros Hunc Hrb Hlen Hcut. cbv zeta. split.
  { unfold BaseJudger.run. cbn [fold_left].
    assert (Hwire : List.length (wire payload) = (4 + List.length payload)%nat).
    { unfold wire. rewrite length_app. reflexivity. }
    destruct (Nat.lt_ge_cases cut 4) as [Hshort | Hlong].
    - rewrite (dispatch_data_throw m st st (Bytes (take cut (wire payload))) _ Hunc
                 (onData_short m st (take cut (wire payload)) Hrb
                    ltac:(rewrite length_take; lia))).
      unfold BaseJudger.dispatch. cbn [uncaught set_uncaught].
      split; [eexists; reflexivity |]. split; [reflexivity |]. split; [reflexivity |].
      intros; lia.
    - assert (Hfirst : take cut (wire payload)
                       = Buffer.bytesBE 4 (Buffer.length payload)
                           ++ take (cut - 4) payload).
      { unfold wire. rewrite take_app.
        change (List.length (Buffer.bytesBE 4 _)) with 4%nat.
        rewrite take_ge by (simpl; lia). reflexivity. }
      rewrite Hfirst.
      rewrite (dispatch_data_normal m st _ _ Hunc
                 (onData_first_chunk m st (Buffer.length payload)
                    (take (cut - 4) payload) Hrb
                    ltac:(unfold Buffer.length in *; lia)
                    ltac:(unfold Buffer.length; rewrite length_take; lia))).
      erewrite dispatch_data_throw;
        [| exact Hunc | apply onData_next_chunk; simpl; lia].
      cbn [uncaught set_uncaught]. split; [eexists; reflexivity |].
      split; [reflexivity |]. split; [reflexivity |]. intros _. reflexivity. }
  { change (BaseJudger.run m
              [BaseJudger.Data (Text (Buffer.toString (take cut (wire payload))));
               BaseJudger.Data (Text (Buffer.toString (drop cut (wire payload))))] st)
      with (BaseJudger.run m
              [BaseJudger.Data (Text (Buffer.toString (drop cut (wire payload))))]
              (BaseJudger.dispatch m st
                 (BaseJudger.Data (Text (Buffer.toString (take cut (wire payload))))))).
    rewrite (dispatch_data_throw m st st _ _ Hunc (onData_text m st _ Hrb)).
    rewrite (run_after_uncaught m _ _ (TypeError "data.readIntBE is not a function"))
      by reflexivity.
    split; [eexists; reflexivity |]. repeat split. exact Hrb. }
Qed.

Lemma split_frame_is_not_reassembled_witness :
  let payload := Buffer.new_string job7_text in
  let st := Stub.new (fun _ => Resolved tt) (fun _ => Resolved tt)
              (Resolved accepted) Pending 0 in
  let st' := BaseJudger.run (json := FlatJSON.codec) Stub.methods
               [BaseJudger.Data (Bytes (take 4 (wire payload)));
                BaseJudger.Data (Bytes (drop 4 (wire payload)))] st in
  0 < Buffer.length payload < 2 ^ 31
  /\ (exists e, uncaught st' = Some e)
  /\ history st' = []
  /\ sent st' = [].
Proof.
  cbv zeta.
  assert (Hlen : 0 < Buffer.length (Buffer.new_string job7_text) < 2 ^ 31)
    by (split; reflexivity).
  split; [exact Hlen |].
  destruct (split_frame_is_not_reassembled (json := FlatJSON.codec) Stub.methods
              (Stub.new (fun _ => Resolved tt) (fun _ => Resolved tt)
                 (Resolved accepted) Pending 0)
              (Buffer.new_string job7_text) 4 eq_refl eq_refl Hlen
              ltac:(vm_compute; lia)) as ((He & Hh & Hs & _) & _).
  split; [exact He | split; [exact Hh | exact Hs]].
Defined.

(** The same frame handed over as one Buffer to a backend that delivers a
    verdict: the job goes through the pipeline up to [sendResult_], whose
    TypeError is dropped; nothing is sent. *)
Example whole_frame_run :
  let st := BaseJudger.run (json := FlatJSON.codec) Stub.methods
              [BaseJudger.Data (Bytes (wire (Buffer.new_string job7_text)))]
              (Stub.new (fun _ => Resolved tt) (fun _ => Resolved tt)
                 (Resolved accepted) Pending 0) in
  uncaught st = None
  /\ receivedBytes_ st = 0
  /\ List.filter is_pipeline_step (history st) = [HLogin; HSubmit job7; HGetStatus]
  /\ last (history st) = Some (HUnhandled (TypeError "Buffer is not a constructor"))
  /\ sent st = [].
Proof. vm_compute. repeat split; reflexivity. Qed.

(** * Further properties of the code *)

(** ** Pages of the site *)

Lemma substring_skip (pre s : string) (n : nat) :
  substring (String.length pre) n (pre +:+ s) = substring 0 n s.
Proof. induction pre as [| c pre IH]; simpl; [reflexivity | exact IH]. Qed.

Lemma substring_head (needle post : string) :
  substring 0 (String.length needle) (needle +:+ post) = needle.
Proof.
  induction needle as [| c needle IH]; simpl.
  - destruct post; reflexivity.
  - rewrite IH. reflexivity.
Qed.

Lemma substring_head_inv (needle s : string) :
  substring 0 (String.length needle) s = needle ->
  exists post, s = needle +:+ post.
Proof.
  revert s. induction needle as [| c needle IH]; intros s H.
  - exists s. reflexivity.
  - destruct s as [| c' s]; simpl in H; [discriminate |].
    injection H as -> H. destruct (IH s H) as [post ->].
    exists post. reflexivity.
Qed.

Lemma substring_inv (needle s : string) (m : nat) :
  needle <> EmptyString ->
  substring m (String.length needle) s = needle ->
  exists pre post, s = pre +:+ needle +:+ post.
Proof.
  intros Hne. revert s. induction m as [| m IH]; intros s H.
  - destruct (substring_head_inv needle s H) as [post ->].
    exists EmptyString, post. reflexivity.
  - destruct s as [| c s]; simpl in H.
    + destruct needle; [contradiction | discriminate].
    + destruct (IH s H) as (pre & post & ->).
      exists (String c pre), post. reflexivity.
Qed.

(** [s.indexOf(needle) >= 0] holds exactly when [needle] occurs somewhere
    in [s]. *)
Lemma contains_occurs (s needle : string) :
  needle <> EmptyString ->
  A2ojJudger.contains s needle = true
  <-> exists pre post, s = pre +:+ needle +:+ post.
Proof.
  intros Hne. unfold A2ojJudger.contains. rewrite bool_decide_eq_true. split.
  - intros [m Hm]. apply (substring_inv needle s m Hne).
    exact (index_correct1 0 m needle s Hm).
  - intros (pre & post & ->).
    destruct (index 0 needle (pre +:+ needle +:+ post)) as [m |] eqn:E;
      [eexists; reflexivity |].
    exfalso.
    apply (index_correct3 0 (String.length pre) needle _ E Hne (Nat.le_0_l _)).
    rewrite substring_skip. apply substring_head.
Qed.

Lemma log_eq {X} (message : string) (st : Judger X) :
  BaseJudger.log message st
  = (Normal tt,
     set_console (console st ++ ["[" +:+ judgerId_ st +:+ "]: " +:+ message]) st).
Proof. reflexivity. Qed.

(** X1. [A2ojJudger.login], when the site answers: it sends one POST to
    the sign-in page with the account's name and password, and its promise
    resolves exactly when the response is ok and its body does not contain
    the sign-in form anywhere; otherwise it rejects, without a reason.
    The status url, the session flag and the socket are left alone. *)
Theorem login_needs_a_page_without_form (st : Judger A2ojJudger.fields)
    (r : response) (rest : list response) :
  A2ojJudger.responses (ext st) = r :: rest ->
  let st' := after A2ojJudger.login st in
  (fst (A2ojJudger.login st) = Normal (Resolved tt)
   <-> ok r = true
       /\ ~ (exists pre post, body r = pre +:+ signin_form +:+ post))
  /\ (fst (A2ojJudger.login st) = Normal (Resolved tt)
      \/ fst (A2ojJudger.login st) = Normal (Rejected JUndefined))
  /\ history st'
     = history st
         ++ [HRequest
               (mk_request "POST" "http://www.a2oj.com/SignInCode.jsp"
                  [("Username"%string, JString (A2ojJudger.username_ (ext st)));
                   ("Password"%string, JString (A2ojJudger.password_ (ext st)));
                   ("rm"%string, JString "on")])]
  /\ A2ojJudger.responses (ext st') = rest
  /\ A2ojJudger.statusUrl_ (ext st') = A2ojJudger.statusUrl_ (ext st)
  /\ loggedIn_ st' = loggedIn_ st
  /\ client_ st' = client_ st.
Proof.
  intros Hr. cbv zeta.
  assert (Hform : signin_form <> EmptyString) by discriminate.
  pose proof (contains_occurs (body r) signin_form Hform) as Hocc.
  destruct st as [cl id rd rb rdb li x co hi un].
  destruct x as [u p t su rs ck]. cbn in Hr. subst rs.
  unfold after, A2ojJudger.login, A2ojJudger.Unirest.
  fold signin_form.
  destruct (A2ojJudger.contains (body r) signin_form) eqn:Hc;
    destruct (ok r) eqn:Hok; run_m; rewrite ?Hok, ?Hc; cbn.
  - split; [| split; [right; reflexivity | repeat split]].
    split; [discriminate |]. intros [_ Hno]. exfalso. apply Hno, Hocc. reflexivity.
  - split; [| split; [right; reflexivity | repeat split]].
    split; [discriminate | intros [H _]; discriminate].
  - split; [| split; [left; reflexivity | repeat split]].
    split; [| reflexivity]. intros _. split; [reflexivity |].
    intros Hyes. apply Hocc in Hyes. discriminate.
  - split; [| split; [right; reflexivity | repeat split]].
    split; [discriminate | intros [H _]; discriminate].
Qed.

Lemma login_needs_a_page_without_form_witness :
  let st := a2oj [mk_response true "Welcome" None] [] in
  A2ojJudger.responses (ext st) = [mk_response true "Welcome" None]
  /\ fst (A2ojJudger.login st) = Normal (Resolved tt)
  /\ ~ (exists pre post, "Welcome"%string = pre +:+ signin_form +:+ post).
Proof.
  cbv zeta. split; [reflexivity | split; [reflexivity |]].
  destruct (login_needs_a_page_without_form
              (a2oj [mk_response true "Welcome" None] [])
              (mk_response true "Welcome" None) [] eq_refl) as [Hiff _].
  exact (proj2 (proj1 Hiff eq_refl)).
Defined.

(** X2. [A2ojJudger.submit], when the site answers: it sends one POST to
    the submit page carrying the problem id, the language of [info] as it
    stands and the source.  The promise resolves, and the status url
    becomes the response's url, when the response is ok, its body contains
    the confirmation banner and it has a url.  When the response is not ok
    or the banner is missing, the promise rejects without a reason and the
    status url keeps its former value, also one left by an earlier
    submission. *)
Theorem submit_keeps_the_url_of_the_last_success (st : Judger A2ojJudger.fields)
    (info : Info.t) (r : response) (rest : list response) :
  A2ojJudger.responses (ext st) = r :: rest ->
  let st' := after (A2ojJudger.submit info) st in
  history st'
  = history st
      ++ [HRequest
            (mk_request "POST" "http://www.a2oj.com/SubmitCode.jsp"
               [("ProblemID"%string, JString (Info.vid info));
                ("LanguageID"%string, Info.language info);
                ("Code"%string, JString (Info.source info))])]
  /\ (forall u pre post,
        ok r = true -> body r = pre +:+ submitted_banner +:+ post ->
        url r = Some u ->
        fst (A2ojJudger.submit info st) = Normal (Resolved tt)
        /\ A2ojJudger.statusUrl_ (ext st') = Some u)
  /\ (ok r = false
      \/ ~ (exists pre post, body r = pre +:+ submitted_banner +:+ post) ->
      fst (A2ojJudger.submit info st) = Normal (Rejected JUndefined)
      /\ A2ojJudger.statusUrl_ (ext st') = A2ojJudger.statusUrl_ (ext st))
  /\ client_ st' = client_ st
  /\ loggedIn_ st' = loggedIn_ st.
Proof.
  intros Hr. cbv zeta.
  assert (Hbanner : submitted_banner <> EmptyString) by discriminate.
  pose proof (contains_occurs (body r) submitted_banner Hbanner) as Hocc.
  destruct st as [cl id rd rb rdb li x co hi un].
  destruct x as [u0 p t su rs ck]. cbn in Hr. subst rs.
  unfold after, A2ojJudger.submit, A2ojJudger.Unirest.
  fold submitted_banner.
  destruct (A2ojJudger.contains (body r) submitted_banner) eqn:Hc;
    destruct (ok r) eqn:Hok; destruct (url r) as [u' |] eqn:Hu;
    run_m; rewrite ?Hok, ?Hc, ?Hu; cbn;
    (split; [reflexivity |]);
    (split; [intros u pre post Hok' Hbody Hurl;
             try discriminate;
             try (assert (Hfalse : false = true)
                    by (apply Hocc; eauto); discriminate);
             try (injection Hurl as <-; split; reflexivity) |]);
    (split; [intros [Hno | Hno];
             try discriminate;
             try (exfalso; apply Hno, Hocc; reflexivity);
             try (split; reflexivity) |]);
    split; reflexivity.
Qed.

Lemma submit_keeps_the_url_of_the_last_success_witness :
  let accepted_page :=
    mk_response true ("<html>" +:+ submitted_banner +:+ "</html>")
      (Some "http://www.a2oj.com/status?id=1"%string) in
  let refused_page := mk_response true "<html>Slow down</html>" None in
  let st1 := after (A2ojJudger.submit job7) (a2oj [accepted_page; refused_page] []) in
  let st2 := after (A2ojJudger.submit job7) st1 in
  A2ojJudger.statusUrl_ (ext st1) = Some "http://www.a2oj.com/status?id=1"%string
  /\ A2ojJudger.responses (ext st1) = [refused_page]
  /\ A2ojJudger.statusUrl_ (ext st2) = A2ojJudger.statusUrl_ (ext st1).
Proof.
  cbv zeta. split; [| split; [reflexivity |]].
  - destruct (submit_keeps_the_url_of_the_last_success
                (a2oj [mk_response true ("<html>" +:+ submitted_banner +:+ "</html>")
                         (Some "http://www.a2oj.com/status?id=1"%string);
                       mk_response true "<html>Slow down</html>" None] [])
                job7 _ _ eq_refl) as (_ & Hyes & _).
    exact (proj2 (Hyes _ "<html>"%string "</html>"%string eq_refl eq_refl eq_refl)).
  - destruct (submit_keeps_the_url_of_the_last_success
                (after (A2ojJudger.submit job7)
                   (a2oj [mk_response true ("<html>" +:+ submitted_banner +:+ "</html>")
                            (Some "http://www.a2oj.com/status?id=1"%string);
                          mk_response true "<html>Slow down</html>" None] []))
                job7 (mk_response true "<html>Slow down</html>" None) [] eq_refl)
      as (_ & _ & Hno & _).
    apply Hno. right. intros Hocc.
    apply (contains_occurs "<html>Slow down</html>" submitted_banner) in Hocc;
      [| discriminate].
    vm_compute in Hocc. discriminate.
Defined.

(** X3. [A2ojJudger.getStatus] before any accepted submission, or with an
    empty status url: the promise rejects at once, without a reason; one
    line is logged; no request is sent and the clock is not read. *)
Theorem getStatus_without_url_rejects (st : Judger A2ojJudger.fields) :
  A2ojJudger.statusUrl_ (ext st) = None
  \/ A2ojJudger.statusUrl_ (ext st) = Some EmptyString ->
  A2ojJudger.getStatus st
  = (Normal (Rejected JUndefined),
     set_console
       (console st ++
          ["[" +:+ judgerId_ st +:+ "]: "
             +:+ "Fail to fetch status, unable to construct url."]) st).
Proof.
  intros H. unfold A2ojJudger.getStatus.
  rewrite (bind_normal _ _ st st st) by reflexivity.
  destruct H as [-> | ->]; reflexivity.
Qed.

Lemma getStatus_without_url_rejects_witness :
  let st := a2oj [] [0; 1; 2] in
  A2ojJudger.statusUrl_ (ext st) = None
  /\ fst (A2ojJudger.getStatus st) = Normal (Rejected JUndefined)
  /\ history (after A2ojJudger.getStatus st) = []
  /\ A2ojJudger.clock (ext (after A2ojJudger.getStatus st)) = [0; 1; 2].
Proof.
  cbv zeta. split; [reflexivity |]. unfold after.
  rewrite (getStatus_without_url_rejects (a2oj [] [0; 1; 2]) (or_introl eq_refl)).
  repeat split.
Defined.

(** ** Jobs that fail before the first submission *)

(** X7. A [login] that throws instead of returning a promise is caught by
    the [try] of [maybeJudge_], whose [catch] clause knows one reason only:
    the job is failed as "Invalid language", although its language has just
    been translated, and the failure carries the translated language. *)
Theorem thrown_login_is_reported_as_invalid_language {json : JSON} {X}
    (m : BaseJudger.Methods X) (info : Info.t) (st st1 st2 : Judger X)
    (language e : jsval) :
  BaseJudger.getLanguage m (Info.language info) st = (Normal language, st1) ->
  loggedIn_ st1 = false ->
  BaseJudger.login m (set_history (history st1 ++ [HLogin]) st1) = (Throw e, st2) ->
  BaseJudger.maybeJudge_ m info st
  = (Normal tt,
     failed_state (Info.set_language language info)
       (JString BaseJudger.ERRORS.INVALID_LANGUAGE) st2)
  /\ Result.result
       (BaseJudger.onFailed_result (Info.set_language language info)
          (JString BaseJudger.ERRORS.INVALID_LANGUAGE))
     = "Judge Error (Invalid Language)"%string.
Proof.
  intros Hl Hout Hlogin. split; [| reflexivity].
  rewrite (maybeJudge_translated m info st st1 language Hl).
  rewrite Hout. cbn [negb]. unfold try_catch.
  rewrite (bind_throw _ _ st1 e st2); [reflexivity |].
  rewrite (bind_normal _ _ st1 tt (set_history (history st1 ++ [HLogin]) st1));
    [exact Hlogin | reflexivity].
Qed.

Lemma thrown_login_is_reported_as_invalid_language_witness :
  let st := Stub.new (fun _ => Resolved tt) (fun _ => Resolved tt)
              (Resolved accepted) Pending 0 in
  List.filter is_failed
    (history (after (BaseJudger.maybeJudge_ (json := FlatJSON.codec)
                       stub_without_login job7) st))
  = [HFailed job7 (JString "Invalid language")
       (Result.mk 1003 "7" "0" "0" "Judge Error (Invalid Language)" "0"
          (Some EmptyString))].
Proof.
  cbv zeta. unfold after.
  rewrite (proj1 (thrown_login_is_reported_as_invalid_language
                    (json := FlatJSON.codec) stub_without_login job7
                    (Stub.new (fun _ => Resolved tt) (fun _ => Resolved tt)
                       (Resolved accepted) Pending 0)
                    _ _ (JString "1") _ eq_refl eq_refl eq_refl)).
  reflexivity.
Defined.

(** X8. The second tier of [judge_] when the login is refused: after one
    rejected submission and one rejected login the job is failed with the
    reason "Login failed", whose result string is "Judge Error"; there is
    no second submission and no wait. *)
Theorem refused_relogin_fails_the_job {json : JSON} {X}
    (m : BaseJudger.Methods X) (info : Info.t) (st st1 st2 : Judger X)
    (e e' : jsval) :
  BaseJudger.submit m info (set_history (history st ++ [HSubmit info]) st)
    = (Normal (Rejected e), st1) ->
  BaseJudger.login m
    (after (BaseJudger.log ("Error: " +:+ toString e);;
            BaseJudger.log "Submit failed, assume not logged in.";;
            record HLogin) st1)
    = (Normal (Rejected e'), st2) ->
  BaseJudger.judge_ m info st
  = (Normal tt,
     failed_state info (JString BaseJudger.ERRORS.LOGIN_FAILED) st2)
  /\ Result.result
       (BaseJudger.onFailed_result info (JString BaseJudger.ERRORS.LOGIN_FAILED))
     = "Judge Error"%string.
Proof.
  intros Hsubmit Hlogin. split; [| reflexivity].
  unfold BaseJudger.judge_.
  rewrite (bind_normal _ _ st (Rejected e) st1).
  2: { rewrite (bind_normal _ _ st tt (set_history (history st ++ [HSubmit info]) st));
         [exact Hsubmit | reflexivity]. }
  cbn [then_]. unfold absorb at 1. rewrite !log_bind.
  erewrite bind_normal.
  2: { erewrite bind_normal by reflexivity. exact Hlogin. }
  reflexivity.
Qed.

Lemma refused_relogin_fails_the_job_witness :
  let st := Stub.new (fun _ => Rejected (JString "wrong password"))
              (fun _ => Rejected JUndefined) (Resolved accepted) Pending 0 in
  List.filter is_pipeline_step
    (history (after (BaseJudger.judge_ (json := FlatJSON.codec) Stub.methods job7) st))
  = [HSubmit job7; HLogin;
     HFailed job7 (JString "Login failed")
       (Result.mk 1003 "7" "0" "0" "Judge Error" "0" (Some EmptyString))].
Proof.
  cbv zeta. unfold after.
  rewrite (proj1 (refused_relogin_fails_the_job (json := FlatJSON.codec)
                    Stub.methods job7
                    (Stub.new (fun _ => Rejected (JString "wrong password"))
                       (fun _ => Rejected JUndefined) (Resolved accepted) Pending 0)
                    _ _ JUndefined (JString "wrong password") eq_refl eq_refl)).
  reflexivity.
Defined.

(** ** Relations the pipeline keeps *)

Create HintDb keep discriminated.

Section KeepsCombinators.
Context {X : Type} (R : Judger X -> Judger X -> Prop) {keeps : Keeps R}.

Lemma keep_ret {A} (a : A) : respects R (mret a : M X A).
Proof. intros st. apply keeps_refl. Qed.

Lemma keep_bind {A B} (f : A -> M X B) (c : M X A) :
  respects R c -> (forall a, respects R (f a)) -> respects R (mbind f c).
Proof.
  intros Hc Hf st. specialize (Hc st). unfold after in *.
  unfold mbind, M_bind. destruct (c st) as [[a | e] st']; simpl in *.
  - eapply keeps_trans; [exact Hc | apply Hf].
  - exact Hc.
Qed.

Lemma keep_this : respects R (this : M X _).
Proof. intros st. apply keeps_refl. Qed.

Lemma keep_throw {A} (e : jsval) : respects R (throw e : M X A).
Proof. intros st. apply keeps_refl. Qed.

Lemma keep_lift {A} (c : completion A) : respects R (lift c : M X A).
Proof. intros st. apply keeps_refl. Qed.

Lemma keep_modify (f : Judger X -> Judger X) :
  (forall st, R st (f st)) -> respects R (modify f).
Proof. intros Hf st. apply Hf. Qed.

Lemma keep_record (h : hevent) : respects R (record h : M X unit).
Proof. intros st. apply keeps_history. Qed.

Lemma keep_log (message : string) : respects R (BaseJudger.log message : M X unit).
Proof. intros st. apply keeps_logged. Qed.

Lemma keep_try_catch {A} (body : M X A) (handler : jsval -> M X A) :
  respects R body -> (forall e, respects R (handler e)) ->
  respects R (try_catch body handler).
Proof.
  intros Hb Hh st. specialize (Hb st). unfold after, try_catch in *.
  destruct (body st) as [[a | e] st']; simpl in *.
  - exact Hb.
  - eapply keeps_trans; [exact Hb | apply Hh].
Qed.

Lemma keep_absorb (callback : M X unit) :
  respects R callback -> respects R (absorb callback).
Proof.
  intros Hc st. specialize (Hc st). unfold after, absorb in *.
  destruct (callback st) as [[a | e] st']; simpl in *.
  - exact Hc.
  - eapply keeps_trans; [exact Hc | apply keeps_history].
Qed.

Lemma keep_then {A} (p : promise A) (onFulfilled : A -> M X unit)
    (onRejected : jsval -> M X unit) :
  (forall a, respects R (onFulfilled a)) -> (forall e, respects R (onRejected e)) ->
  respects R (then_ p onFulfilled onRejected).
Proof.
  intros Hf Hr. destruct p; simpl.
  - apply keep_absorb, Hf.
  - apply keep_absorb, Hr.
  - apply keep_ret.
Qed.

Lemma keep_setTimeout (callback : M X unit) (ms : Z) :
  respects R callback -> respects R (setTimeout callback ms).
Proof.
  intros Hc st. unfold after, setTimeout.
  specialize (Hc (set_history (history st ++ [HTimer ms]) st)). unfold after in Hc.
  destruct (callback _) as [[a | e] st']; simpl in *.
  - eapply keeps_trans; [apply keeps_history | exact Hc].
  - eapply keeps_trans; [apply keeps_history |].
    eapply keeps_trans; [exact Hc | apply keeps_uncaught].
Qed.

End KeepsCombinators.

#[export] Hint Resolve keep_ret keep_this keep_throw keep_lift keep_record
  keep_log : keep.

(** Decomposes a goal [respects R c] along the structure of [c], for a
    relation that is only known to be kept. *)
Ltac keep_step :=
  lazymatch goal with
  | |- Keeps _ => exact _
  | |- respects _ (mbind _ _) => apply keep_bind; try exact _; [| intros ?]
  | |- respects _ (try_catch _ _) => apply keep_try_catch; try exact _; [| intros ?]
  | |- respects _ (then_ _ _ _) => apply keep_then; try exact _; intros ?
  | |- respects _ (setTimeout _ _) => apply keep_setTimeout; try exact _
  | |- respects _ (modify _) =>
      apply keep_modify; intros ?; cbv beta;
      first [ apply keeps_receivedData | apply keeps_receivedBytes
            | apply keeps_readBytes | apply keeps_uncaught
            | solve [eauto with keep] ]
  | |- respects _ (if ?b then _ else _) => destruct b
  | |- respects _ (match ?x with _ => _ end) => destruct x
  | |- respects _ _ => solve [eauto with keep]
  end.
Ltac keep := repeat keep_step.

(** The pipeline from [onData_] down keeps [R] as soon as the backend's
    methods and [onSubmitted_] do. *)
Section KeepsPipeline.
Context {X : Type} {json : JSON} (R : Judger X -> Judger X -> Prop) {keeps : Keeps R}.
Variable m : BaseJudger.Methods X.
Hypothesis Hm : methods_respect R m.
Hypothesis Hsubmitted : forall info, respects R (BaseJudger.onSubmitted_ m info).

Lemma keep_onFailed (info : Info.t) (reason : jsval) :
  respects R (BaseJudger.onFailed info reason : M X unit).
Proof. unfold BaseJudger.onFailed. keep. Qed.

Lemma keep_call_getWaitTime : respects R (BaseJudger.call_getWaitTime m).
Proof.
  destruct Hm as (_ & _ & _ & _ & _ & Hw). unfold BaseJudger.call_getWaitTime.
  destruct (BaseJudger.getWaitTime m) as [f |] eqn:E; keep.
Qed.

Lemma keep_judge_ (info : Info.t) : respects R (BaseJudger.judge_ m info).
Proof.
  destruct Hm as (_ & _ & Hl & Hs & _).
  pose proof keep_onFailed as Hf. pose proof keep_call_getWaitTime as Hw.
  unfold BaseJudger.judge_. keep.
Qed.

Lemma keep_maybeJudge_ (info : Info.t) : respects R (BaseJudger.maybeJudge_ m info).
Proof.
  destruct Hm as (Hg & _ & Hl & _).
  pose proof keep_onFailed as Hf. pose proof keep_judge_ as Hj.
  unfold BaseJudger.maybeJudge_. keep.
Qed.

Lemma keep_onData_ (data : chunk) : respects R (BaseJudger.onData_ m data).
Proof.
  pose proof keep_maybeJudge_ as Hj.
  unfold BaseJudger.onData_, BaseJudger.Buffer_concat. keep.
Qed.

End KeepsPipeline.

(** [sendResult_] ends at its first [new Buffer], before it writes: the
    part of the pipeline that follows a submission keeps [R] as well, for
    every backend whose methods do. *)
Section KeepsResults.
Context {X : Type} {json : JSON} (R : Judger X -> Judger X -> Prop) {keeps : Keeps R}.
Variable m : BaseJudger.Methods X.
Hypothesis Hm : methods_respect R m.

Lemma keep_sendResult_ (r : Result.t) : respects R (BaseJudger.sendResult_ r : M X unit).
Proof.
  intros st. unfold after. rewrite sendResult_throws. cbn [snd].
  eapply keeps_trans; [apply keeps_history |].
  apply (keeps_logged (set_history (history st ++ [HSendResult r]) st)).
Qed.

Lemma keep_onResult_ (r : Result.t) : respects R (BaseJudger.onResult_ m r).
Proof.
  destruct Hm as (_ & Hc & _). pose proof keep_sendResult_ as Hs.
  unfold BaseJudger.onResult_. keep.
Qed.

Lemma keep_onSubmitted_ (info : Info.t) : respects R (BaseJudger.onSubmitted_ m info).
Proof.
  destruct Hm as (_ & _ & _ & _ & Hs & _). pose proof keep_onResult_ as Hr.
  unfold BaseJudger.onSubmitted_. keep.
Qed.

Lemma keep_pipeline (data : chunk) : respects R (BaseJudger.onData_ m data).
Proof. apply keep_onData_; [exact _ | exact Hm | exact keep_onSubmitted_]. Qed.

End KeepsResults.

(** The methods of [A2ojJudger] keep every relation that admits the three
    things they do to the fields of the subclass: taking a response,
    reading the clock, recording a status url. *)
Section KeepsA2oj.
Context {json : JSON}
  (R : Judger A2ojJudger.fields -> Judger A2ojJudger.fields -> Prop)
  {keeps : Keeps R}.
Hypothesis Hresponses :
  forall st r, R st (set_ext (A2ojJudger.set_responses r (ext st)) st).
Hypothesis Hclock :
  forall st c, R st (set_ext (A2ojJudger.set_clock c (ext st)) st).
Hypothesis HstatusUrl :
  forall st u, R st (set_ext (A2ojJudger.set_statusUrl_ u (ext st)) st).

Lemma keep_Unirest (method url : string) (form : list (string * jsval)) :
  respects R (A2ojJudger.Unirest method url form).
Proof.
  intros st. unfold after, A2ojJudger.Unirest.
  rewrite (bind_normal _ _ st tt
             (set_history (history st ++ [HRequest (mk_request method url form)]) st))
    by reflexivity.
  erewrite bind_normal by reflexivity.
  cbn [ext set_history].
  destruct (A2ojJudger.responses (ext st)) as [| r rest].
  - apply keeps_history.
  - eapply keeps_trans; [apply keeps_history |].
    apply (Hresponses
             (set_history (history st ++ [HRequest (mk_request method url form)]) st)
             rest).
Qed.

Lemma keep_poll (statusUrl : string) (startTime limit : Z) (readings : list Z) :
  respects R (A2ojJudger.poll statusUrl startTime limit readings).
Proof.
  induction readings as [| now later IH]; simpl.
  - keep.
  - destruct (now - startTime <? limit); [| keep].
    apply keep_bind; [exact _ | keep | intros _; exact IH].
Qed.

Lemma A2ojJudger_kept : methods_respect R A2ojJudger.methods.
Proof.
  pose proof keep_Unirest as Hreq. pose proof keep_poll as Hpoll.
  repeat split; simpl.
  - intros l. unfold A2ojJudger.getLanguage. keep.
  - unfold A2ojJudger.getCompileInfo. keep.
  - unfold A2ojJudger.login. keep.
  - intros info. unfold A2ojJudger.submit. keep.
  - unfold A2ojJudger.getStatus. keep.
  - discriminate.
Qed.

(** The promise of [getStatus] is rejected or left unsettled, never
    resolved. *)
Lemma getStatus_never_resolves (st : Judger A2ojJudger.fields) :
  fst (A2ojJudger.getStatus st) = Normal (Rejected JUndefined)
  \/ fst (A2ojJudger.getStatus st) = Normal Pending.
Proof.
  unfold A2ojJudger.getStatus.
  rewrite (bind_normal _ _ st st st) by reflexivity.
  destruct (negb _).
  - left. reflexivity.
  - right. destruct (A2ojJudger.clock (ext st)) as [| startTime readings];
      [reflexivity |].
    destruct (poll_requests (default EmptyString (A2ojJudger.statusUrl_ (ext st)))
                startTime (A2ojJudger.timeout_ (ext st) * 1000) readings st)
      as (n & _ & Hfst & _).
    destruct (A2ojJudger.poll _ startTime _ readings st) as [[[] | e] st'] eqn:Hp;
      simpl in Hfst; [| discriminate].
    rewrite (bind_normal _ _ st tt st' Hp). reflexivity.
Qed.

(** Hence [onSubmitted_] of an [A2ojJudger] ends where [getStatus] ends:
    [onResult_] and [sendResult_] are out of reach. *)
Lemma A2oj_onSubmitted_ (info : Info.t) (st : Judger A2ojJudger.fields) :
  BaseJudger.onSubmitted_ A2ojJudger.methods info st
  = (Normal tt,
     after A2ojJudger.getStatus (set_history (history st ++ [HGetStatus]) st)).
Proof.
  unfold BaseJudger.onSubmitted_, after.
  pose proof (getStatus_never_resolves
                (set_history (history st ++ [HGetStatus]) st)) as H.
  destruct (A2ojJudger.getStatus (set_history (history st ++ [HGetStatus]) st))
    as [c st1] eqn:Hg.
  cbn [fst] in H.
  rewrite (bind_normal _ _ st
             (match c with Normal p => p | Throw _ => Pending end) st1).
  - destruct H as [-> | ->]; reflexivity.
  - rewrite (bind_normal _ _ st tt (set_history (history st ++ [HGetStatus]) st))
      by reflexivity.
    cbn [BaseJudger.getStatus A2ojJudger.methods]. rewrite Hg.
    destruct H as [-> | ->]; reflexivity.
Qed.

Lemma keep_A2oj_onSubmitted_ (info : Info.t) :
  respects R (BaseJudger.onSubmitted_ A2ojJudger.methods info).
Proof.
  intros st. unfold after at 1. rewrite A2oj_onSubmitted_. cbn [snd].
  destruct A2ojJudger_kept as (_ & _ & _ & _ & Hs & _).
  eapply keeps_trans; [apply keeps_history | apply Hs].
Qed.

Lemma keep_A2oj_onData_ (data : chunk) :
  respects R (BaseJudger.onData_ A2ojJudger.methods data).
Proof.
  apply keep_onData_; [exact _ | exact A2ojJudger_kept | exact keep_A2oj_onSubmitted_].
Qed.

End KeepsA2oj.

(** The handlers of the socket events keep every relation that, in
    addition, admits changes of the socket. *)
Section KeepsSocket.
Context {X : Type} {json : JSON} (R : Judger X -> Judger X -> Prop) {keeps : Keeps R}.
Hypothesis Hclient : forall st c, R st (set_client_ c st).
Variable m : BaseJudger.Methods X.
Hypothesis Hdata : forall data, respects R (BaseJudger.onData_ m data).

Lemma keep_client_write (chunk : list byte) : respects R (client_write chunk : M X unit).
Proof. intros st. apply Hclient. Qed.

Lemma keep_client_connect (host : string) (port : Z) :
  respects R (client_connect host port : M X unit).
Proof. intros st. apply Hclient. Qed.

Lemma keep_client_removeListener : respects R (client_removeListener : M X unit).
Proof. intros st. apply Hclient. Qed.

Lemma keep_emit_connect (n : nat) : respects R (BaseJudger.emit_connect n : M X unit).
Proof.
  pose proof keep_client_write as Hw. pose proof keep_client_removeListener as Hr.
  induction n as [| n IH]; simpl; [keep |].
  unfold BaseJudger.onConnect. keep.
Qed.

Lemma keep_handler (ev : BaseJudger.event) : respects R (BaseJudger.handler m ev).
Proof.
  pose proof keep_client_write as Hw. pose proof keep_client_connect as Hc.
  pose proof keep_emit_connect as He.
  destruct ev as [| data | err | hadError]; simpl.
  - keep.
  - apply Hdata.
  - unfold BaseJudger.onError_, BaseJudger.reconnect_, BaseJudger.connect_. keep.
  - unfold BaseJudger.onClose_, BaseJudger.reconnect_, BaseJudger.connect_. keep.
Qed.

Lemma keep_dispatch (st : Judger X) (ev : BaseJudger.event) :
  R st (BaseJudger.dispatch m st ev).
Proof.
  unfold BaseJudger.dispatch. destruct (uncaught st); [apply keeps_refl |].
  pose proof (keep_handler ev st) as H. unfold after in H.
  destruct (BaseJudger.handler m ev st) as [[a | e] st']; simpl in *.
  - exact H.
  - eapply keeps_trans; [exact H | apply keeps_uncaught].
Qed.

Lemma keep_run (evs : list BaseJudger.event) (st : Judger X) :
  R st (BaseJudger.run m evs st).
Proof.
  unfold BaseJudger.run. revert st.
  induction evs as [| ev evs IH]; intros st; simpl.
  - apply keeps_refl.
  - eapply keeps_trans; [apply keep_dispatch | apply IH].
Qed.

End KeepsSocket.

#[export] Instance same_client_keeps {X} : Keeps (@same_client X).
Proof. split; unfold same_client; intros; simpl; congruence. Qed.

#[export] Instance same_account_keeps : Keeps same_account.
Proof.
  split; unfold same_account; intros; simpl; try (repeat split; reflexivity).
  destruct H as (? & ? & ? & ?), H0 as (? & ? & ? & ?).
  repeat split; congruence.
Qed.

#[export] Instance logs_tagged_keeps {X} : Keeps (@logs_tagged X).
Proof.
  split; unfold logs_tagged; intros; simpl;
    try (split; [reflexivity |]; exists []; split;
         [symmetry; apply app_nil_r | constructor]).
  - destruct H as (Hid1 & more1 & Hc1 & Ht1), H0 as (Hid2 & more2 & Hc2 & Ht2).
    split; [congruence |]. exists (more1 ++ more2). split.
    + rewrite Hc2, Hc1. symmetry. apply app_assoc.
    + apply Forall_app. split; [exact Ht1 |]. rewrite <- Hid1. exact Ht2.
  - split; [reflexivity |]. eexists. split; [reflexivity |].
    constructor; [| constructor]. exists message. reflexivity.
Qed.

(** ** What the socket events do *)

Lemma emit_connect_eq {X} (n : nat) (st : Judger X) :
  BaseJudger.emit_connect n st
  = (Normal tt,
     set_console
       (console st
          ++ replicate n ("[" +:+ judgerId_ st +:+ "]: " +:+ "Server connected."))
       (set_client_
          (mk_socket (encoding (client_ st)) (connects (client_ st))
             (connectListeners (client_ st) - n)
             (written (client_ st) ++ replicate n secret_chunk)) st)).
Proof.
  revert st. induction n as [| n IH]; intros st.
  - destruct st as [[enc cs k ws] id rd rb rdb li x co hi un]. simpl.
    rewrite !app_nil_r, Nat.sub_0_r. reflexivity.
  - cbn [BaseJudger.emit_connect].
    rewrite (bind_normal _ _ st tt
               (set_client_
                  (mk_socket (encoding (client_ st)) (connects (client_ st))
                     (pred (connectListeners (client_ st))) (written (client_ st))) st))
      by reflexivity.
    erewrite bind_normal by reflexivity.
    rewrite IH.
    destruct st as [[enc cs k ws] id rd rb rdb li x co hi un]. simpl.
    rewrite <- !app_assoc. simpl.
    replace (pred k - n)%nat with (k - S n)%nat by lia. reflexivity.
Qed.

(** What an event other than ['data'] does: a ['connect'] event makes every
    waiting listener write the secret; an ['error'] event, and a ['close']
    event that reports no error, set the timer of [reconnect_], whose
    callback dials once more and leaves one more listener waiting. *)
Lemma dispatch_without_data {json : JSON} {X} (m : BaseJudger.Methods X)
    (st : Judger X) (ev : BaseJudger.event) :
  is_data ev = false ->
  uncaught st = None ->
  let st' := BaseJudger.dispatch m st ev in
  let k := connectListeners (client_ st) in
  uncaught st' = None
  /\ receivedBytes_ st' = receivedBytes_ st
  /\ receivedData_ st' = receivedData_ st
  /\ ext st' = ext st
  /\ loggedIn_ st' = loggedIn_ st
  /\ history st'
     = history st ++ (if loses_connection ev then [HTimer 5000] else [])
  /\ encoding (client_ st') = encoding (client_ st)
  /\ connects (client_ st')
     = connects (client_ st)
         ++ (if loses_connection ev then [dispatcher_address] else [])
  /\ connectListeners (client_ st')
     = (if is_connect ev then O else if loses_connection ev then S k else k)
  /\ written (client_ st')
     = written (client_ st)
         ++ (if is_connect ev then replicate k secret_chunk else []).
Proof.
  intros Hev Hunc. cbv zeta. unfold BaseJudger.dispatch. rewrite Hunc.
  destruct ev as [| data | err | [|]]; [| discriminate | | |]; cbn [BaseJudger.handler].
  - rewrite (bind_normal _ _ st st st) by reflexivity.
    rewrite emit_connect_eq, Nat.sub_diag. simpl.
    rewrite !app_nil_r. repeat split; assumption.
  - simpl. rewrite !app_nil_r. repeat split; assumption.
  - simpl. rewrite !app_nil_r. repeat split; assumption.
  - simpl. rewrite !app_nil_r. repeat split; assumption.
Qed.

Lemma unanswered_bound (evs : list BaseJudger.event) (k : nat) :
  (unanswered evs k <= k + List.length (List.filter loses_connection evs))%nat.
Proof.
  revert k. induction evs as [| ev evs IH]; intros k; simpl; [lia |].
  destruct (is_connect ev) eqn:Hc.
  - destruct ev; try discriminate. simpl. specialize (IH O). lia.
  - destruct (loses_connection ev); simpl.
    + specialize (IH (S k)). lia.
    + apply IH.
Qed.

(** A run without ['data'] events: the pipeline is not entered, the timers
    of [reconnect_] are all the history gains, and the socket has been
    dialled once for every lost connection and has carried the secret once
    for every dial that a ['connect'] event has answered. *)
Lemma run_without_data {json : JSON} {X} (m : BaseJudger.Methods X)
    (evs : list BaseJudger.event) (st : Judger X) :
  Forall (fun ev => is_data ev = false) evs ->
  uncaught st = None ->
  let st' := BaseJudger.run m evs st in
  let k := connectListeners (client_ st) in
  let n := List.length (List.filter loses_connection evs) in
  uncaught st' = None
  /\ receivedBytes_ st' = receivedBytes_ st
  /\ receivedData_ st' = receivedData_ st
  /\ ext st' = ext st
  /\ loggedIn_ st' = loggedIn_ st
  /\ history st' = history st ++ replicate n (HTimer 5000)
  /\ encoding (client_ st') = encoding (client_ st)
  /\ connects (client_ st') = connects (client_ st) ++ replicate n dispatcher_address
  /\ connectListeners (client_ st') = unanswered evs k
  /\ written (client_ st')
     = written (client_ st) ++ replicate (k + n - unanswered evs k) secret_chunk.
Proof.
  intros Hevs. revert st. induction Hevs as [| ev evs Hev Hevs IH]; intros st Hunc.
  - cbv zeta. simpl. rewrite !app_nil_r, Nat.add_0_r, Nat.sub_diag. simpl.
    rewrite app_nil_r. repeat split; assumption.
  - cbv zeta.
    change (BaseJudger.run m (ev :: evs) st)
      with (BaseJudger.run m evs (BaseJudger.dispatch m st ev)).
    destruct (dispatch_without_data m st ev Hev Hunc)
      as (Hu & Hrb & Hrd & Hx & Hl & Hh & He & Hc & Hk & Hw).
    destruct (IH _ Hu) as (Hu' & Hrb' & Hrd' & Hx' & Hl' & Hh' & He' & Hc' & Hk' & Hw').
    pose proof (unanswered_bound evs
                  (connectListeners (client_ (BaseJudger.dispatch m st ev)))) as Hb.
    rewrite Hrb', Hrd', Hx', Hl', Hh', He', Hc', Hk', Hw'.
    rewrite Hrb, Hrd, Hx, Hl, Hh, He, Hc, Hw.
    rewrite Hk in *. clear Hk.
    cbn [unanswered List.filter].
    destruct (is_connect ev) eqn:Hic.
    + destruct ev; try discriminate. cbn [loses_connection] in *.
      rewrite !app_nil_r, <- !app_assoc, <- replicate_add.
      repeat split; try assumption. f_equal. f_equal. simpl in *. lia.
    + destruct (loses_connection ev); cbn [List.length].
      * rewrite !app_nil_r, <- !app_assoc. cbn [replicate app].
        repeat split; try assumption. f_equal. f_equal. lia.
      * rewrite !app_nil_r. repeat split; assumption.
Qed.

Lemma before_data_without_data (evs : list BaseJudger.event) :
  Forall (fun ev => is_data ev = false) (before_data evs).
Proof.
  induction evs as [| ev evs IH]; simpl; [constructor |].
  destruct (is_data ev) eqn:E; [constructor |].
  constructor; assumption.
Qed.

(** What a socket with an encoding emits is a run without ['data'] events,
    followed or not by a ['data'] event that carries a string. *)
Lemma delivered_events (socket : Socket) (evs : list BaseJudger.event) :
  encoding socket <> None ->
  Forall (delivers socket) evs ->
  (Forall (fun ev => is_data ev = false) evs /\ evs = before_data evs)
  \/ (Exists (fun ev => is_data ev = true) evs
      /\ exists s later, evs = before_data evs ++ BaseJudger.Data (Text s) :: later).
Proof.
  intros Henc Hevs. induction Hevs as [| ev evs Hev Hevs IH].
  - left. split; [constructor | reflexivity].
  - destruct ev as [| [s | buf] | err | hadError]; simpl in *.
    + destruct IH as [[Hno Heq] | (Hyes & s & later & Heq)].
      * left. split; [constructor; [reflexivity | exact Hno] | congruence].
      * right. split; [right; exact Hyes |]. exists s, later. congruence.
    + right. split; [left; reflexivity |]. exists s, evs. reflexivity.
    + contradiction.
    + destruct IH as [[Hno Heq] | (Hyes & s & later & Heq)].
      * left. split; [constructor; [reflexivity | exact Hno] | congruence].
      * right. split; [right; exact Hyes |]. exists s, later. congruence.
    + destruct IH as [[Hno Heq] | (Hyes & s & later & Heq)].
      * left. split; [constructor; [reflexivity | exact Hno] | congruence].
      * right. split; [right; exact Hyes |]. exists s, later. congruence.
Qed.

Lemma run_app {json : JSON} {X} (m : BaseJudger.Methods X)
    (evs1 evs2 : list BaseJudger.event) (st : Judger X) :
  BaseJudger.run m (evs1 ++ evs2) st = BaseJudger.run m evs2 (BaseJudger.run m evs1 st).
Proof. unfold BaseJudger.run. apply fold_left_app. Qed.

(** The runs of a judger whose socket delivers strings: the state is the one
    reached before the first ['data'] event, with the TypeError of that
    event in the event loop when there was one. *)
Lemma run_delivered {json : JSON} {X} (m : BaseJudger.Methods X)
    (evs : list BaseJudger.event) (st : Judger X) :
  encoding (client_ st) <> None ->
  Forall (delivers (client_ st)) evs ->
  uncaught st = None ->
  receivedBytes_ st = 0 ->
  (Forall (fun ev => is_data ev = false) evs
   /\ BaseJudger.run m evs st = BaseJudger.run m (before_data evs) st)
  \/ (Exists (fun ev => is_data ev = true) evs
      /\ BaseJudger.run m evs st
         = set_uncaught (Some (TypeError "data.readIntBE is not a function"))
             (BaseJudger.run m (before_data evs) st)).
Proof.
  intros Henc Hevs Hunc Hrb.
  destruct (delivered_events _ evs Henc Hevs) as [[Hno Heq] | (Hyes & s & later & Heq)].
  - left. split; [exact Hno | rewrite <- Heq; reflexivity].
  - right. split; [exact Hyes |].
    destruct (run_without_data m (before_data evs) st
                (before_data_without_data evs) Hunc) as (Hu & Hb & _).
    rewrite Heq at 1. rewrite run_app.
    change (BaseJudger.run m (BaseJudger.Data (Text s) :: later)
              (BaseJudger.run m (before_data evs) st))
      with (BaseJudger.run m later
              (BaseJudger.dispatch m (BaseJudger.run m (before_data evs) st)
                 (BaseJudger.Data (Text s)))).
    rewrite (dispatch_data_throw m _ _ _ _ Hu
               (onData_text m _ s ltac:(rewrite Hb; exact Hrb))).
    apply (run_after_uncaught m later _ (TypeError "data.readIntBE is not a function")).
    reflexivity.
Qed.

(** ** The judger as it runs *)

(** X5. The socket of a judger delivers strings, and [onData_] throws on a
    string: whatever the backend and whatever the dispatcher sends, no job
    is ever decoded or judged.  In every run of a started judger over
    events its socket can emit, the backend's fields are those of the
    constructor, no frame is awaited or stored, and the history holds
    nothing but the timers of [reconnect_], one for every lost connection
    before the first ['data'] event: no login, no submission, no failure
    report, no result.  The first ['data'] event leaves a TypeError in
    the event loop. *)
Theorem no_job_is_ever_judged {json : JSON} {X} (m : BaseJudger.Methods X)
    (judgerId : string) (x : X) (evs : list BaseJudger.event) :
  let st0 := after BaseJudger.start (BaseJudger.new judgerId x) in
  Forall (delivers (client_ st0)) evs ->
  let st := BaseJudger.run m evs st0 in
  ext st = x
  /\ loggedIn_ st = false
  /\ receivedBytes_ st = 0
  /\ receivedData_ st = None
  /\ history st
     = replicate (List.length (List.filter loses_connection (before_data evs)))
         (HTimer 5000)
  /\ (Forall (fun ev => is_data ev = false) evs -> uncaught st = None)
  /\ (Exists (fun ev => is_data ev = true) evs ->
      exists message, uncaught st = Some (TypeError message)).
Proof.
  cbv zeta. intros Hevs.
  set (st0 := after BaseJudger.start (BaseJudger.new judgerId x)) in *.
  destruct (run_without_data m (before_data evs) st0
              (before_data_without_data evs) eq_refl)
    as (Hu & Hrb & Hrd & Hx & Hl & Hh & _).
  destruct (run_delivered m evs st0 ltac:(discriminate) Hevs eq_refl eq_refl)
    as [[Hno ->] | [Hyes ->]].
  - rewrite Hx, Hl, Hrb, Hrd, Hh. repeat split; try reflexivity.
    + intros _. exact Hu.
    + intros Hyes. exfalso. clear - Hno Hyes.
      induction Hyes as [ev evs H | ev evs H IH]; inversion Hno; subst; [congruence | auto].
  - cbn [ext loggedIn_ receivedBytes_ receivedData_ history uncaught set_uncaught].
    rewrite Hx, Hl, Hrb, Hrd, Hh. repeat split; try reflexivity.
    + intros Hno. exfalso. clear - Hno Hyes.
      induction Hyes as [ev evs H | ev evs H IH]; inversion Hno; subst; [congruence | auto].
    + intros _. eexists. reflexivity.
Qed.

Lemma no_job_is_ever_judged_witness :
  let evs := [BaseJudger.Connect;
              BaseJudger.Data
                (Text (Buffer.toString (wire (Buffer.new_string job7_text))));
              BaseJudger.Close false] in
  let st := BaseJudger.run (json := FlatJSON.codec) A2ojJudger.methods evs
              (a2oj [mk_response true "Welcome" None] []) in
  history st = []
  /\ A2ojJudger.responses (ext st) = [mk_response true "Welcome" None]
  /\ exists message, uncaught st = Some (TypeError message).
Proof.
  cbv zeta.
  destruct (no_job_is_ever_judged (json := FlatJSON.codec) A2ojJudger.methods
              "A2OJ:bnutest"
              (A2ojJudger.mk "bnutest" "bnutest" 120 None
                 [mk_response true "Welcome" None] [])
              [BaseJudger.Connect;
               BaseJudger.Data
                 (Text (Buffer.toString (wire (Buffer.new_string job7_text))));
               BaseJudger.Close false])
    as (Hx & _ & _ & _ & Hh & _ & Hu).
  { repeat constructor. discriminate. }
  split; [exact Hh |]. split.
  - exact (f_equal A2ojJudger.responses Hx).
  - apply Hu. right. left. reflexivity.
Defined.

(** X9. The socket traffic of a judger, whatever its backend, over the
    events its socket can emit.  Up to the first ['data'] event, which stops
    it, the judger dials the dispatcher of [config.js] once at the start and
    once more for every ['error'] event and every ['close'] event without
    error, not for a ['close'] that reports an error.  Each dial leaves a
    listener waiting, and a ['connect'] event runs all that wait: the secret
    is written once for every dial made before the last ['connect'] event,
    so a connection that follows failed dials carries the secret several
    times.  Nothing else is ever written. *)
Theorem socket_traffic {json : JSON} {X} (m : BaseJudger.Methods X)
    (judgerId : string) (x : X) (evs : list BaseJudger.event) :
  let st0 := after BaseJudger.start (BaseJudger.new judgerId x) in
  Forall (delivers (client_ st0)) evs ->
  let st := BaseJudger.run m evs st0 in
  let dials := S (List.length (List.filter loses_connection (before_data evs))) in
  let waiting := unanswered (before_data evs) 1 in
  connects (client_ st) = replicate dials dispatcher_address
  /\ connectListeners (client_ st) = waiting
  /\ sent st = replicate (dials - waiting) secret_chunk.
Proof.
  cbv zeta. intros Hevs.
  set (st0 := after BaseJudger.start (BaseJudger.new judgerId x)) in *.
  destruct (run_without_data m (before_data evs) st0
              (before_data_without_data evs) eq_refl)
    as (_ & _ & _ & _ & _ & _ & _ & Hc & Hk & Hw).
  assert (Hclient : client_ (BaseJudger.run m evs st0)
                    = client_ (BaseJudger.run m (before_data evs) st0)).
  { destruct (run_delivered m evs st0 ltac:(discriminate) Hevs eq_refl eq_refl)
      as [[_ ->] | [_ ->]]; reflexivity. }
  unfold sent. rewrite Hclient, Hc, Hk, Hw. repeat split.
Qed.

Lemma socket_traffic_witness :
  let evs := [BaseJudger.SocketError (JString "ECONNREFUSED");
              BaseJudger.Close true;
              BaseJudger.Connect;
              BaseJudger.Close false;
              BaseJudger.Data (Text "hello");
              BaseJudger.Connect] in
  let st := BaseJudger.run (json := FlatJSON.codec) A2ojJudger.methods evs (a2oj [] []) in
  connects (client_ st) = replicate 3 dispatcher_address
  /\ connectListeners (client_ st) = 1%nat
  /\ sent st = replicate 2 secret_chunk.
Proof.
  cbv zeta.
  apply (socket_traffic (json := FlatJSON.codec) A2ojJudger.methods "A2OJ:bnutest"
           (A2ojJudger.mk "bnutest" "bnutest" 120 None [] [])
           [BaseJudger.SocketError (JString "ECONNREFUSED");
            BaseJudger.Close true;
            BaseJudger.Connect;
            BaseJudger.Close false;
            BaseJudger.Data (Text "hello");
            BaseJudger.Connect]).
  repeat constructor. discriminate.
Defined.

(** ** Whole runs, whatever the chunks *)

(** What one socket event does to the contents of the socket, for a
    backend whose pipeline leaves the socket alone. *)
Lemma event_socket_contents {json : JSON} {X} (m : BaseJudger.Methods X)
    (Hdata : forall data, respects same_client (BaseJudger.onData_ m data))
    (st : Judger X) (ev : BaseJudger.event) :
  Forall (eq secret_chunk) (sent st) ->
  Forall (eq dispatcher_address) (connects (client_ st)) ->
  Forall (eq secret_chunk) (sent (BaseJudger.dispatch m st ev))
  /\ Forall (eq dispatcher_address) (connects (client_ (BaseJudger.dispatch m st ev))).
Proof.
  intros Hs Hc. destruct (uncaught st) as [e |] eqn:Hunc.
  { unfold BaseJudger.dispatch. rewrite Hunc. split; assumption. }
  destruct (is_data ev) eqn:Hev.
  - destruct ev as [| data | |]; try discriminate.
    assert (Hsame : client_ (BaseJudger.dispatch m st (BaseJudger.Data data)) = client_ st).
    { unfold BaseJudger.dispatch. rewrite Hunc. cbn [BaseJudger.handler].
      pose proof (Hdata data st) as H. unfold after, same_client in H.
      destruct (BaseJudger.onData_ m data st) as [[[] | e] st']; exact H. }
    unfold sent. rewrite Hsame. split; assumption.
  - destruct (dispatch_without_data m st ev Hev Hunc)
      as (_ & _ & _ & _ & _ & _ & _ & Hc' & _ & Hw').
    unfold sent. rewrite Hc', Hw'. split; apply Forall_app; split; try assumption.
    + destruct (is_connect ev); [| constructor].
      apply Forall_replicate. reflexivity.
    + destruct (loses_connection ev); repeat constructor.
Qed.

Lemma run_socket_contents {json : JSON} {X} (m : BaseJudger.Methods X)
    (Hdata : forall data, respects same_client (BaseJudger.onData_ m data))
    (evs : list BaseJudger.event) (st : Judger X) :
  Forall (eq secret_chunk) (sent st) ->
  Forall (eq dispatcher_address) (connects (client_ st)) ->
  Forall (eq secret_chunk) (sent (BaseJudger.run m evs st))
  /\ Forall (eq dispatcher_address) (connects (client_ (BaseJudger.run m evs st))).
Proof.
  revert st. induction evs as [| ev evs IH]; intros st Hs Hc; [split; assumption |].
  change (BaseJudger.run m (ev :: evs) st)
    with (BaseJudger.run m evs (BaseJudger.dispatch m st ev)).
  destruct (event_socket_contents m Hdata st ev Hs Hc) as [Hs1 Hc1].
  apply IH; assumption.
Qed.

(** X4. No result is ever written.  [sendResult_] logs and then throws at
    its first [new Buffer], before any write, whatever the result and the
    state.  Hence for every backend whose methods leave the socket alone,
    in every run of a started judger over any events, whether its chunks
    are strings or Buffers, every chunk written to the dispatcher is the
    secret and every address dialled is the dispatcher of [config.js]. *)
Theorem no_result_is_ever_written {json : JSON} {X} (m : BaseJudger.Methods X)
    (judgerId : string) (x : X) (evs : list BaseJudger.event) :
  methods_respect same_client m ->
  (forall (r : Result.t) (st : Judger X),
      (exists message,
          fst (BaseJudger.sendResult_ r st) = Throw (TypeError message))
      /\ sent (after (BaseJudger.sendResult_ r) st) = sent st)
  /\ (let st := BaseJudger.run m evs
                  (after BaseJudger.start (BaseJudger.new judgerId x)) in
      Forall (eq secret_chunk) (sent st)
      /\ Forall (eq dispatcher_address) (connects (client_ st))).
Proof.
  intros Hm. split.
  - intros r st. unfold after. rewrite sendResult_throws.
    split; [eexists; reflexivity | reflexivity].
  - cbv zeta. apply run_socket_contents.
    + intros data. apply (keep_pipeline same_client m Hm).
    + constructor.
    + repeat constructor.
Qed.

Lemma Stub_keeps_the_socket : methods_respect same_client Stub.methods.
Proof.
  split; [intros l st; reflexivity |].
  split; [intros st; reflexivity |].
  split; [intros st; reflexivity |].
  split; [intros info st; reflexivity |].
  split; [intros st; reflexivity |].
  intros f [= <-] st. reflexivity.
Qed.

Lemma no_result_is_ever_written_witness :
  let st := BaseJudger.run (json := FlatJSON.codec) Stub.methods
              [BaseJudger.Connect;
               BaseJudger.Data (Bytes (wire (Buffer.new_string job7_text)))]
              (after BaseJudger.start
                 (Stub.new (fun _ => Resolved tt) (fun _ => Resolved tt)
                    (Resolved accepted) Pending 0)) in
  List.filter is_pipeline_step (history st) = [HLogin; HSubmit job7; HGetStatus]
  /\ List.filter is_report (history st)
     = [HSendResult (Result.mk 1003 "7" "256" "15" "Accepted" "999" None)]
  /\ Forall (eq secret_chunk) (sent st).
Proof.
  cbv zeta. split; [reflexivity |]. split; [reflexivity |].
  exact (proj1 (proj2 (no_result_is_ever_written (json := FlatJSON.codec) Stub.methods
                         "stub"
                         (Stub.mk (fun _ => Resolved tt) (fun _ => Resolved tt)
                            (Resolved accepted) Pending 0 0 0)
                         [BaseJudger.Connect;
                          BaseJudger.Data (Bytes (wire (Buffer.new_string job7_text)))]
                         Stub_keeps_the_socket))).
Defined.

(** ** Whole runs of an A2OJ judger *)

(** X10. An A2OJ judger never sends a result.  In every state it can reach,
    stopped by an exception or not, every chunk it has written to the
    dispatcher is the secret, and every address it has dialled is the
    dispatcher of [config.js]: no job, accepted or refused by the site,
    with a known language or not, ever makes it write a frame. *)
Theorem only_the_secret_is_ever_sent {json : JSON} (st : Judger A2ojJudger.fields) :
  reachable st ->
  Forall (eq secret_chunk) (sent st)
  /\ Forall (eq dispatcher_address) (connects (client_ st)).
Proof.
  intros (username & password & timeout & responses & clock & evs & ->).
  apply run_socket_contents.
  - intros data.
    apply (keep_A2oj_onData_ same_client
             (fun _ _ => eq_refl) (fun _ _ => eq_refl) (fun _ _ => eq_refl)).
  - constructor.
  - repeat constructor.
Qed.

Lemma only_the_secret_is_ever_sent_witness :
  let accepted_page :=
    mk_response true ("<html>" +:+ submitted_banner +:+ "</html>")
      (Some "http://www.a2oj.com/status?id=1"%string) in
  let st := BaseJudger.run (json := FlatJSON.codec) A2ojJudger.methods
              [BaseJudger.Connect;
               BaseJudger.Data (Bytes (wire (Buffer.new_string job7_text)))]
              (a2oj [mk_response true "Welcome" None; accepted_page] [0; 200000]) in
  reachable (json := FlatJSON.codec) st
  /\ List.filter is_pipeline_step (history st)
     = [HLogin; HSubmit (Info.set_language (JString "41") job7); HGetStatus]
  /\ Forall (eq secret_chunk) (sent st).
Proof.
  cbv zeta.
  assert (Hr : reachable (json := FlatJSON.codec)
                 (BaseJudger.run (json := FlatJSON.codec) A2ojJudger.methods
                    [BaseJudger.Connect;
                     BaseJudger.Data (Bytes (wire (Buffer.new_string job7_text)))]
                    (a2oj [mk_response true "Welcome" None;
                           mk_response true ("<html>" +:+ submitted_banner +:+ "</html>")
                             (Some "http://www.a2oj.com/status?id=1"%string)]
                       [0; 200000]))).
  { exists "bnutest"%string, "bnutest"%string, 120,
      [mk_response true "Welcome" None;
       mk_response true ("<html>" +:+ submitted_banner +:+ "</html>")
         (Some "http://www.a2oj.com/status?id=1"%string)],
      [0; 200000],
      [BaseJudger.Connect;
       BaseJudger.Data (Bytes (wire (Buffer.new_string job7_text)))].
    reflexivity. }
  split; [exact Hr | split; [reflexivity |]].
  exact (proj1 (only_the_secret_is_ever_sent (json := FlatJSON.codec) _ Hr)).
Defined.

Lemma A2oj_run_keeps {json : JSON}
    (R : Judger A2ojJudger.fields -> Judger A2ojJudger.fields -> Prop)
    {keeps : Keeps R}
    (Hclient : forall st c, R st (set_client_ c st))
    (Hresponses : forall st r, R st (set_ext (A2ojJudger.set_responses r (ext st)) st))
    (Hclock : forall st c, R st (set_ext (A2ojJudger.set_clock c (ext st)) st))
    (HstatusUrl : forall st u, R st (set_ext (A2ojJudger.set_statusUrl_ u (ext st)) st))
    (evs : list BaseJudger.event) (st : Judger A2ojJudger.fields) :
  R st (BaseJudger.run A2ojJudger.methods evs st).
Proof.
  apply (keep_run R Hclient A2ojJudger.methods).
  intros data. apply (keep_A2oj_onData_ R Hresponses Hclock HstatusUrl).
Qed.

(** X11. The fields that the source marks [@const] keep the values the
    constructor gave them: in every state an A2OJ judger reaches, the
    judger id is "A2OJ:" followed by the user name, and the user name, the
    password and the timeout are the constructor's arguments. *)
Theorem const_fields_are_never_assigned {json : JSON}
    (username password : string) (timeout : Z)
    (responses : list response) (clock : list Z) (evs : list BaseJudger.event) :
  let st := BaseJudger.run A2ojJudger.methods evs
              (after BaseJudger.start
                 (A2ojJudger.new username password timeout responses clock)) in
  judgerId_ st = ("A2OJ:" +:+ username)%string
  /\ A2ojJudger.username_ (ext st) = username
  /\ A2ojJudger.password_ (ext st) = password
  /\ A2ojJudger.timeout_ (ext st) = timeout.
Proof.
  cbv zeta.
  exact (A2oj_run_keeps same_account
           (fun _ _ => conj eq_refl (conj eq_refl (conj eq_refl eq_refl)))
           (fun _ _ => conj eq_refl (conj eq_refl (conj eq_refl eq_refl)))
           (fun _ _ => conj eq_refl (conj eq_refl (conj eq_refl eq_refl)))
           (fun _ _ => conj eq_refl (conj eq_refl (conj eq_refl eq_refl)))
           evs _).
Qed.

Lemma logs_tagged_same_console {X} (st st' : Judger X) :
  judgerId_ st' = judgerId_ st -> console st' = console st -> logs_tagged st st'.
Proof.
  intros Hid Hc. split; [exact Hid |]. exists []. split.
  - rewrite Hc. symmetry. apply app_nil_r.
  - constructor.
Qed.

(** X12. Every line an A2OJ judger prints goes through [log]: in every
    state it reaches, each line of the console starts with the judger id
    between brackets, "[A2OJ:<user name>]: ". *)
Theorem console_lines_are_tagged {json : JSON}
    (username password : string) (timeout : Z)
    (responses : list response) (clock : list Z) (evs : list BaseJudger.event) :
  Forall (tagged ("A2OJ:" +:+ username))
    (console (BaseJudger.run A2ojJudger.methods evs
                (after BaseJudger.start
                   (A2ojJudger.new username password timeout responses clock)))).
Proof.
  destruct (A2oj_run_keeps logs_tagged
              (fun st c => logs_tagged_same_console st _ eq_refl eq_refl)
              (fun st r => logs_tagged_same_console st _ eq_refl eq_refl)
              (fun st c => logs_tagged_same_console st _ eq_refl eq_refl)
              (fun st u => logs_tagged_same_console st _ eq_refl eq_refl)
              evs
              (after BaseJudger.start
                 (A2ojJudger.new username password timeout responses clock)))
    as (_ & more & Hc & Ht).
  rewrite Hc. exact Ht.
Qed.

(** ** What the site is sent *)

Lemma login_accepted (st : Judger A2ojJudger.fields) (r : response)
    (rest : list response) :
  A2ojJudger.responses (ext st) = r :: rest ->
  ok r = true ->
  A2ojJudger.contains (body r) signin_form = false ->
  exists st',
    A2ojJudger.login st = (Normal (Resolved tt), st')
    /\ history st'
       = history st
           ++ [HRequest
                 (mk_request "POST" "http://www.a2oj.com/SignInCode.jsp"
                    [("Username"%string, JString (A2ojJudger.username_ (ext st)));
                     ("Password"%string, JString (A2ojJudger.password_ (ext st)));
                     ("rm"%string, JString "on")])].
Proof.
  intros Hr Hok Hc.
  destruct st as [cl id rd rb rdb li x co hi un].
  destruct x as [u p t su rs ck]. cbn in Hr. subst rs.
  unfold A2ojJudger.login, A2ojJudger.Unirest. fold signin_form.
  run_m. rewrite Hok, Hc. cbn. eexists. split; reflexivity.
Qed.

Lemma absorb_extends {X} (c : M X unit) (st : Judger X) :
  fst (absorb c st) = Normal tt
  /\ exists more, history (snd (absorb c st)) = history (snd (c st)) ++ more.
Proof.
  unfold absorb. destruct (c st) as [[[] | e] st']; simpl; split; try reflexivity.
  - exists []. symmetry. apply app_nil_r.
  - eexists. reflexivity.
Qed.

(** [judge_] starts with a call of [submit], which starts with its
    request. *)
Lemma judge_first_request {json : JSON} (info : Info.t)
    (st : Judger A2ojJudger.fields) :
  exists more,
    history (snd (BaseJudger.judge_ A2ojJudger.methods info st))
    = (history st
         ++ [HSubmit info;
             HRequest
               (mk_request "POST" "http://www.a2oj.com/SubmitCode.jsp"
                  [("ProblemID"%string, JString (Info.vid info));
                   ("LanguageID"%string, Info.language info);
                   ("Code"%string, JString (Info.source info))])])
        ++ more.
Proof.
  unfold BaseJudger.judge_.
  match goal with
  | |- context [mbind ?K (mbind (fun _ => ?S) (record ?h)) st] => set (k := K)
  end.
  pose proof (@extends_frame A2ojJudger.fields) as Hframe.
  assert (Hk : forall p, respects extends (k p)).
  { intros p. subst k.
    destruct (A2ojJudger_respects (@extends A2ojJudger.fields))
      as (_ & _ & Hl & Hs & _).
    pose proof (respects_onSubmitted_ extends A2ojJudger.methods
                  (A2ojJudger_respects extends)) as Hsub.
    pose proof (@respects_onFailed A2ojJudger.fields extends _) as Hf.
    pose proof (respects_call_getWaitTime extends A2ojJudger.methods
                  (A2ojJudger_respects extends)) as Hw.
    pose proof (@respects_log A2ojJudger.fields extends _) as Hlog.
    respect. }
  clearbody k.
  cbn [BaseJudger.submit A2ojJudger.methods].
  unfold A2ojJudger.submit, A2ojJudger.Unirest.
  match goal with
  | |- context [mbind k (mbind (fun _ => mbind ?K2 (mbind (fun _ => ?U) (record ?h2)))
                           (record ?h1)) st] =>
      set (k2 := K2); set (u := U); set (request := h2)
  end.
  assert (Hrest : respects extends (mbind k (mbind k2 u))).
  { subst k2 u.
    pose proof (@respects_log A2ojJudger.fields extends _) as Hlog.
    respect. }
  clearbody k2 u.
  destruct (Hrest (set_history (history st ++ [HSubmit info; request]) st))
    as [more Hmore].
  exists more. unfold after in Hmore. cbn [history set_history] in Hmore.
  rewrite <- Hmore.
  unfold mbind, M_bind, record, modify. cbn [set_history history].
  rewrite <- app_assoc. reflexivity.
Qed.

(** X13. What [maybeJudge_] makes an A2OJ judger send to the site for a
    job whose language is in the table, when the login is accepted: first
    the sign-in request, then a submit request that carries the job's
    problem id and source and, as language, the entry of the table and not
    the dispatcher's code. *)
Theorem translated_language_is_submitted {json : JSON}
    (st : Judger A2ojJudger.fields) (info : Info.t) (id : string)
    (r : response) (rest : list response) :
  A2ojJudger.languageTable_ !! toString (Info.language info) = Some id ->
  loggedIn_ st = false ->
  A2ojJudger.responses (ext st) = r :: rest ->
  ok r = true ->
  ~ (exists pre post, body r = pre +:+ signin_form +:+ post) ->
  exists more,
    history (after (BaseJudger.maybeJudge_ A2ojJudger.methods info) st)
    = history st
        ++ [HLogin;
            HRequest
              (mk_request "POST" "http://www.a2oj.com/SignInCode.jsp"
                 [("Username"%string, JString (A2ojJudger.username_ (ext st)));
                  ("Password"%string, JString (A2ojJudger.password_ (ext st)));
                  ("rm"%string, JString "on")]);
            HSubmit (Info.set_language (JString id) info);
            HRequest
              (mk_request "POST" "http://www.a2oj.com/SubmitCode.jsp"
                 [("ProblemID"%string, JString (Info.vid info));
                  ("LanguageID"%string, JString id);
                  ("Code"%string, JString (Info.source info))])]
        ++ more.
Proof.
  intros Hid Hflag Hr Hok Hform.
  assert (Hc : A2ojJudger.contains (body r) signin_form = false).
  { destruct (A2ojJudger.contains (body r) signin_form) eqn:E; [| reflexivity].
    exfalso. apply Hform. apply contains_occurs in E; [exact E | discriminate]. }
  set (st1 := set_history (history st ++ [HLogin]) st).
  destruct (login_accepted st1 r rest Hr Hok Hc) as (st2 & Hlogin & Hh2).
  set (info' := Info.set_language (JString id) info).
  unfold after.
  rewrite (maybeJudge_translated A2ojJudger.methods info st st (JString id)
             (getLanguage_mapped _ _ _ Hid)).
  rewrite Hflag. cbn [negb]. unfold try_catch.
  rewrite (bind_normal _ _ st (Resolved tt) st2).
  2: { rewrite (bind_normal _ _ st tt st1) by reflexivity. exact Hlogin. }
  cbn [then_]. fold info'.
  destruct (absorb_extends (BaseJudger.judge_ A2ojJudger.methods info') st2)
    as [Hfst [more1 Hmore1]].
  destruct (absorb (BaseJudger.judge_ A2ojJudger.methods info') st2)
    as [c st3] eqn:Habs.
  cbn [fst snd] in *. subst c. cbn [snd]. rewrite Hmore1.
  set (request :=
         HRequest
           (mk_request "POST" "http://www.a2oj.com/SubmitCode.jsp"
              [("ProblemID"%string, JString (Info.vid info));
               ("LanguageID"%string, JString id);
               ("Code"%string, JString (Info.source info))])).
  set (st2' := set_history (history st2 ++ [HSubmit info'; request]) st2).
  assert (Hext : exists more2,
             history (snd (BaseJudger.judge_ A2ojJudger.methods info' st2))
             = history st2' ++ more2)
    by (destruct (judge_first_request info' st2) as [more2 H]; exists more2; exact H).
  destruct Hext as [more2 Hmore2]. rewrite Hmore2.
  subst st2'. cbn [history set_history]. rewrite Hh2. subst st1.
  cbn [history set_history ext].
  exists (more2 ++ more1). rewrite <- !app_assoc. reflexivity.
Qed.

Lemma translated_language_is_submitted_witness :
  let st := a2oj [mk_response true "Welcome" None] [] in
  exists more,
    history (after (BaseJudger.maybeJudge_ (json := FlatJSON.codec)
                      A2ojJudger.methods job7) st)
    = [HLogin;
       HRequest
         (mk_request "POST" "http://www.a2oj.com/SignInCode.jsp"
            [("Username"%string, JString "bnutest");
             ("Password"%string, JString "bnutest");
             ("rm"%string, JString "on")]);
       HSubmit (Info.set_language (JString "41") job7);
       HRequest
         (mk_request "POST" "http://www.a2oj.com/SubmitCode.jsp"
            [("ProblemID"%string, JString "100A");
             ("LanguageID"%string, JString "41");
             ("Code"%string, JString "int main() {}")])]
      ++ more.
Proof.
  cbv zeta.
  assert (Hno : ~ (exists pre post, "Welcome"%string = pre +:+ signin_form +:+ post)).
  { intros Hocc.
    apply (contains_occurs "Welcome" signin_form) in Hocc; [| discriminate].
    vm_compute in Hocc. discriminate. }
  exact (translated_language_is_submitted (json := FlatJSON.codec)
           (a2oj [mk_response true "Welcome" None] []) job7 "41"
           (mk_response true "Welcome" None) [] eq_refl eq_refl eq_refl eq_refl Hno).
Defined.

(** ** Verdicts of a backend that delivers them *)

(** X14. When the promise of [getStatus] resolves with a result other than
    "Compile Error", [onSubmitted_] builds the verdict, with the type 1003,
    the runid of the job, the four values of the status as they came and no
    compileInfo property, and hands it to [sendResult_], which logs it and
    throws: the TypeError is dropped with the promise of the callback, and
    nothing is written to the dispatcher. *)
Theorem resolved_status_is_not_reported {json : JSON} {X}
    (m : BaseJudger.Methods X) (info : Info.t) (st st1 : Judger X)
    (status : Status.t) :
  let verdict :=
    Result.mk 1003 (Info.runid info) (Status.memoryUsed status)
      (Status.timeUsed status) (Status.result status)
      (Status.remoteRunid status) None in
  BaseJudger.getStatus m (set_history (history st ++ [HGetStatus]) st)
    = (Normal (Resolved status), st1) ->
  Status.result status <> "Compile Error"%string ->
  fst (BaseJudger.onSubmitted_ m info st) = Normal tt
  /\ sent (after (BaseJudger.onSubmitted_ m info) st) = sent st1
  /\ history (after (BaseJudger.onSubmitted_ m info) st)
     = history st1
         ++ [HSendResult verdict; HUnhandled (TypeError "Buffer is not a constructor")]
  /\ console (after (BaseJudger.onSubmitted_ m info) st)
     = console st1
         ++ ["[" +:+ judgerId_ st1 +:+ "]: " +:+ "Done judging. Result: "
               +:+ Status.result status +:+ ", remote runid"
               +:+ Status.remoteRunid status]
  /\ uncaught (after (BaseJudger.onSubmitted_ m info) st) = uncaught st1.
Proof.
  cbv zeta. intros Hstatus Hne.
  unfold after, BaseJudger.onSubmitted_.
  rewrite (bind_normal _ _ st (Resolved status) st1).
  2: { rewrite (bind_normal _ _ st tt (set_history (history st ++ [HGetStatus]) st));
         [exact Hstatus | reflexivity]. }
  cbn [then_]. unfold absorb, BaseJudger.onResult_.
  cbn [Result.result].
  destruct (String.eqb_spec (Status.result status) "Compile Error") as [Heq | _];
    [contradiction |].
  change BaseJudger.RESULT_REPORT_ with 1003.
  rewrite sendResult_throws. cbn [fst snd].
  unfold sent. simpl. rewrite <- app_assoc. repeat split.
Qed.

Lemma resolved_status_is_not_reported_witness :
  let st := Stub.new (fun _ => Resolved tt) (fun _ => Resolved tt)
              (Resolved accepted) Pending 0 in
  let st' := after (BaseJudger.onSubmitted_ (json := FlatJSON.codec) Stub.methods job7)
               st in
  sent st' = []
  /\ history st'
     = [HGetStatus;
        HSendResult (Result.mk 1003 "7" "256" "15" "Accepted" "999" None);
        HUnhandled (TypeError "Buffer is not a constructor")]
  /\ console st' = ["[stub]: Done judging. Result: Accepted, remote runid999"%string].
Proof.
  cbv zeta.
  destruct (resolved_status_is_not_reported (json := FlatJSON.codec) Stub.methods job7
              (Stub.new (fun _ => Resolved tt) (fun _ => Resolved tt)
                 (Resolved accepted) Pending 0)
              _ accepted eq_refl ltac:(discriminate))
    as (_ & Hs & Hh & Hc & _).
  split; [exact Hs | split; [exact Hh | exact Hc]].
Defined.
